(** * FiLiP context-broker models: entity / attribute validation

    A shallow embedding of [filip/cb/models.py]: the pydantic models
    [ContextMetadata], [ContextAttribute], [NamedContextAttribute] and
    [ContextEntity], their validators, the attribute views of an entity and
    the model factory [create_context_entity_model].

    Python values are modelled as data, exceptions as the error side of a
    sum type, and dictionaries as insertion-ordered association lists. *)

From Stdlib Require Import ZArith Ascii String List Bool Lia.
From Stdlib Require Import Floats.SpecFloat.
From stdpp Require Import base option list strings.

Local Open Scope string_scope.
Local Open Scope Z_scope.

Set Warnings "-register-all".

(** ** Host language: characters and strings

    A Python [str] is modelled as a Rocq [string]; each [ascii] stands for
    the code point of the same number (the Latin-1 range of Unicode). *)

Module PyStr.

Definition code (c : ascii) : Z := Z.of_N (N_of_ascii c).

Definition is_digit (c : ascii) : bool := (48 <=? code c) && (code c <=? 57).

Definition digit_val (c : ascii) : Z := code c - 48.

(** The characters [float] and [int] skip at both ends of a string: the
    ASCII white space of C (9 to 13 and 32) and, of the code points from
    128 to 255, the two Unicode spaces, which are turned into blanks
    before parsing. *)
Definition is_space (c : ascii) : bool :=
  let n := code c in
  ((9 <=? n) && (n <=? 13)) || (n =? 32) || (n =? 133) || (n =? 160).

Definition lower (c : ascii) : ascii :=
  let n := code c in
  if (65 <=? n) && (n <=? 90) then ascii_of_N (Z.to_N (n + 32)) else c.

Fixpoint to_list (s : string) : list ascii :=
  match s with
  | EmptyString => []
  | String c r => c :: to_list r
  end.

Fixpoint of_list (l : list ascii) : string :=
  match l with
  | [] => EmptyString
  | c :: r => String c (of_list r)
  end.

Fixpoint lstrip (l : list ascii) : list ascii :=
  match l with
  | c :: r => if is_space c then lstrip r else l
  | [] => []
  end.

(** What is left between the skipped characters. *)
Definition strip (l : list ascii) : list ascii :=
  rev (lstrip (rev (lstrip l))).

(** Decimal digits of a non-negative integer, most significant first. *)
Fixpoint digits_fuel (fuel : nat) (n : Z) (acc : list ascii) : list ascii :=
  match fuel with
  | O => acc
  | S f =>
      let d := ascii_of_N (Z.to_N (48 + n mod 10)) in
      if n <? 10 then d :: acc else digits_fuel f (n / 10) (d :: acc)
  end.

Definition digits (n : Z) : list ascii :=
  digits_fuel (S (Z.to_nat (Z.log2 n))) n [].

(** [str(n)] for a Python [int]. *)
Definition of_int (n : Z) : string :=
  if n <? 0 then String "-"%char (of_list (digits (- n))) else of_list (digits n).

End PyStr.

(** ** Host language: floating-point numbers

    A Python [float] is an IEEE-754 binary64 value, modelled by the
    Standard Library's [spec_float] at precision 53 and [emax] 1024.
    [float(n)], [float(s)] and [repr(x)] are the conversions the value
    validator relies on. *)

Module PyFloat.

Import PyStr.

Definition pyfloat : Type := spec_float.

Definition prec : Z := 53.
Definition emax : Z := 1024.

Definition round (neg : bool) (m : positive) (e : Z) : pyfloat :=
  binary_round prec emax neg m e.

(** Correctly rounded value of [m * 10^e10] for [m >= 0]: an exact integer
    when [e10 >= 0]; otherwise a quotient with at least 64 significant bits
    and a sticky bit, which rounds to the same binary64 value. *)
Definition of_decimal (neg : bool) (m e10 : Z) : pyfloat :=
  match m with
  | Zpos _ =>
      if 0 <=? e10 then
        match m * 10 ^ e10 with
        | Zpos p => round neg p 0
        | _ => S754_zero neg
        end
      else
        let d := 10 ^ (- e10) in
        let s := Z.max 0 (Z.log2 d - Z.log2 m + 64) in
        let n := m * 2 ^ s in
        let q := n / d in
        let sticky := if n mod d =? 0 then 0 else 1 in
        match 2 * q + sticky with
        | Zpos p => round neg p (- s - 1)
        | _ => S754_zero neg
        end
  | _ => S754_zero neg
  end.

(** [float(n)] for a Python [int]: [None] stands for [OverflowError]. *)
Definition of_int (n : Z) : option pyfloat :=
  match of_decimal (n <? 0) (Z.abs n) 0 with
  | S754_infinity _ => None
  | x => Some x
  end.

Definition of_bool (b : bool) : pyfloat :=
  if b then round false 1 0 else S754_zero false.

(** *** Parsing a float literal *)

(** Underscores may only stand between two digits; they are dropped. *)
Fixpoint drop_underscores (prev : option ascii) (l : list ascii)
  : option (list ascii) :=
  match l with
  | [] =>
      match prev with
      | Some "_"%char => None
      | _ => Some []
      end
  | c :: r =>
      if Ascii.eqb c "_" then
        match prev with
        | Some p => if is_digit p then drop_underscores (Some c) r else None
        | None => None
        end
      else
        match prev with
        | Some "_"%char =>
            if is_digit c then cons c <$> drop_underscores (Some c) r else None
        | _ => cons c <$> drop_underscores (Some c) r
        end
  end.

Fixpoint take_digits (l : list ascii) : list ascii * list ascii :=
  match l with
  | c :: r =>
      if is_digit c then let '(d, t) := take_digits r in (c :: d, t)
      else ([], l)
  | [] => ([], [])
  end.

Definition digits_val (l : list ascii) : Z :=
  fold_left (fun acc c => 10 * acc + digit_val c) l 0.

Definition split_sign (l : list ascii) : bool * list ascii :=
  match l with
  | "-"%char :: r => (true, r)
  | "+"%char :: r => (false, r)
  | _ => (false, l)
  end.

(** The exponent part: empty, or [e] / [E], an optional sign and digits. *)
Definition parse_exponent (l : list ascii) : option Z :=
  match l with
  | [] => Some 0
  | c :: r =>
      if Ascii.eqb (lower c) "e" then
        let '(neg, r1) := split_sign r in
        match take_digits r1 with
        | ((_ :: _) as ds, []) =>
            Some (if neg then - digits_val ds else digits_val ds)
        | _ => None
        end
      else None
  end.

(** Decimal exponents beyond these bounds give infinity or zero whatever
    the digits are; cutting there keeps the powers of ten small. *)
Definition of_scientific (neg : bool) (m e10 : Z) : pyfloat :=
  if m =? 0 then S754_zero neg
  else
    let nd := Z.of_nat (length (digits m)) in
    if 400 <? e10 + nd then S754_infinity neg
    else if e10 + nd <? -400 then S754_zero neg
    else of_decimal neg m e10.

Definition parse_number (neg : bool) (l : list ascii) : option pyfloat :=
  let '(ip, r1) := take_digits l in
  let '(fp, r2) :=
    match r1 with
    | "."%char :: r => take_digits r
    | _ => ([], r1)
    end in
  match (ip ++ fp)%list with
  | [] => None
  | ds =>
      e ← parse_exponent r2;
      Some (of_scientific neg (digits_val ds) (e - Z.of_nat (length fp)))
  end.

Definition parse_special (neg : bool) (l : list ascii) : option pyfloat :=
  let w := of_list (map lower l) in
  if String.eqb w "inf" || String.eqb w "infinity" then Some (S754_infinity neg)
  else if String.eqb w "nan" then Some S754_nan
  else None.

(** [float(s)] for a Python [str]: [None] stands for [ValueError]. *)
Definition of_string (s : string) : option pyfloat :=
  l ← drop_underscores None (strip (to_list s));
  let '(neg, r) := split_sign l in
  match parse_special neg r with
  | Some x => Some x
  | None => parse_number neg r
  end.

(** *** [repr(x)]: the shortest decimal string that reads back as [x] *)

(** [x = num / den]; is [x < 10^p]? *)
Definition lt_pow10 (num den p : Z) : bool :=
  if 0 <=? p then num <? den * 10 ^ p else num * 10 ^ (- p) <? den.

Fixpoint first_pow10 (fuel : nat) (num den p : Z) : Z :=
  match fuel with
  | O => p
  | S f => if lt_pow10 num den p then p else first_pow10 f num den (p + 1)
  end.

(** The decimal point position: the least [p] with [x < 10^p]. *)
Definition decpt (num den : Z) : Z :=
  let est := ((Z.log2 num - Z.log2 den) * 30103) / 100000 in
  first_pow10 8 num den (est - 2).

(** [floor (x / 10^t)] for [x = num / den]. *)
Definition scaled_floor (num den t : Z) : Z :=
  if 0 <=? t then num / (den * 10 ^ t) else (num * 10 ^ (- t)) / den.

(** Is [lo * 10^t] at least as close to [x] as [(lo + 1) * 10^t]? *)
Definition nearer_low (num den lo t : Z) : bool :=
  if 0 <=? t then 2 * num <=? (2 * lo + 1) * 10 ^ t * den
  else 2 * num * 10 ^ (- t) <=? (2 * lo + 1) * den.

Definition same_float (x y : pyfloat) : bool :=
  match x, y with
  | S754_finite _ m1 e1, S754_finite _ m2 e2 => Pos.eqb m1 m2 && (e1 =? e2)
  | _, _ => false
  end.

(** The candidate with [n] significant digits, if one reads back as [x]. *)
Definition candidate (x : pyfloat) (num den p : Z) (n : Z) : option (Z * Z) :=
  let t := p - n in
  let lo := scaled_floor num den t in
  let ok c := same_float (of_decimal false c t) x in
  match ok lo, ok (lo + 1) with
  | true, true => Some (if nearer_low num den lo t then lo else lo + 1, t)
  | true, false => Some (lo, t)
  | false, true => Some (lo + 1, t)
  | false, false => None
  end.

Fixpoint shortest (fuel : nat) (x : pyfloat) (num den p n : Z) : Z * Z :=
  match fuel with
  | O => (scaled_floor num den (p - n), p - n)
  | S f =>
      match candidate x num den p n with
      | Some r => r
      | None => shortest f x num den p (n + 1)
      end
  end.

Fixpoint strip_zeros (l : list ascii) : list ascii :=
  match l with
  | "0"%char :: r => strip_zeros r
  | _ => l
  end.

Definition zeros (n : Z) : list ascii := repeat "0"%char (Z.to_nat n).

(** Python's layout of the digits [ds] with the decimal point after the
    first [dp] of them: positional for [-4 < dp <= 16], with an exponent of
    at least two digits otherwise. *)
Definition layout (ds : list ascii) (dp : Z) : list ascii :=
  let nd := Z.of_nat (length ds) in
  if (dp <=? -4) || (16 <? dp) then
    let ex := dp - 1 in
    let exd := digits (Z.abs ex) in
    let exd := if Z.abs ex <? 10 then "0"%char :: exd else exd in
    let sg := if ex <? 0 then "-"%char else "+"%char in
    let mant :=
      match ds with
      | [d] => [d]
      | d :: r => d :: "."%char :: r
      | [] => []
      end in
    (mant ++ "e"%char :: sg :: exd)%list
  else if dp <=? 0 then
    ("0"%char :: "."%char :: zeros (- dp) ++ ds)%list
  else if nd <=? dp then
    (ds ++ zeros (dp - nd) ++ ["."%char; "0"%char])%list
  else
    (take (Z.to_nat dp) ds ++ "."%char :: drop (Z.to_nat dp) ds)%list.

Definition repr_finite (m : positive) (e : Z) : list ascii :=
  let x := round false m e in
  let num := Zpos m * 2 ^ Z.max e 0 in
  let den := 2 ^ Z.max (- e) 0 in
  let p := decpt num den in
  let '(c, t) := shortest 17 x num den p 1 in
  let all := digits c in
  let ds := rev (strip_zeros (rev all)) in
  layout ds (t + Z.of_nat (length all)).

(** [repr(x)], which is also [str(x)], for a Python [float]. *)
Definition repr (x : pyfloat) : string :=
  match x with
  | S754_zero s => if s then "-0.0" else "0.0"
  | S754_infinity s => if s then "-inf" else "inf"
  | S754_nan => "nan"
  | S754_finite s m e =>
      let body := of_list (repr_finite m e) in
      if s then String "-"%char body else body
  end.

(** [bool(x)]: every float but the two zeros is true. *)
Definition truth (x : pyfloat) : bool :=
  match x with
  | S754_zero _ => false
  | _ => true
  end.

End PyFloat.

(** ** Host language: integers read from strings *)

Module PyInt.

Import PyStr PyFloat.

(** [int(s)] for a Python [str]: an optional sign and decimal digits,
    with single underscores between digits; [None] stands for
    [ValueError]. *)
Definition of_string (s : string) : option Z :=
  l ← drop_underscores None (strip (to_list s));
  let '(neg, r) := split_sign l in
  match take_digits r with
  | ((_ :: _) as ds, []) => Some (if neg then - digits_val ds else digits_val ds)
  | _ => None
  end.

End PyInt.

(** ** Host language: regular expressions

    The fragment of Python's [re] syntax the field patterns are written in.
    [ends r st] lists the states a backtracking match of [r] started in
    [st] can stop in; a state is the rest of the subject together with a
    flag telling whether it is still the whole subject (for [^]). *)

Module Regex.

Import PyStr.

Inductive regex : Type :=
  | Eps
  | Chars (p : ascii -> bool)
  | Bol
  | Eol
  | Cat (r1 r2 : regex)
  | Alt (r1 r2 : regex)
  | Star (r : regex)
  | NotAhead (r : regex).

Definition state : Type := bool * list ascii.

(** [$] without [re.MULTILINE]: the end of the subject, or just before a
    newline that ends it. *)
Definition at_end (st : state) : bool :=
  match snd st with
  | [] => true
  | [c] => Ascii.eqb c "010"
  | _ => false
  end.

Definition shorter (st0 st : state) : bool :=
  Nat.ltb (length (snd st)) (length (snd st0)).

(** At most [n] iterations of [step], each consuming a character. *)
Fixpoint star_iter (step : state -> list state) (n : nat) (st : state)
  : list state :=
  match n with
  | O => [st]
  | S k => st :: flat_map (star_iter step k) (List.filter (shorter st) (step st))
  end.

Fixpoint ends (r : regex) (st : state) : list state :=
  match r with
  | Eps => [st]
  | Chars p =>
      match snd st with
      | c :: rest => if p c then [(false, rest)] else []
      | [] => []
      end
  | Bol => if fst st then [st] else []
  | Eol => if at_end st then [st] else []
  | Cat r1 r2 => flat_map (ends r2) (ends r1 st)
  | Alt r1 r2 => ends r1 st ++ ends r2 st
  | Star r1 => star_iter (ends r1) (length (snd st)) st
  | NotAhead r1 =>
      match ends r1 st with
      | [] => [st]
      | _ => []
      end
  end%list.

(** [re.match(r, s) is not None] *)
Definition re_match (r : regex) (s : string) : bool :=
  match ends r (true, to_list s) with
  | [] => false
  | _ => true
  end.

(** A literal string. *)
Fixpoint Str (l : list ascii) : regex :=
  match l with
  | [] => Eps
  | c :: r => Cat (Chars (Ascii.eqb c)) (Str r)
  end.

Definition one_of (s : string) (c : ascii) : bool :=
  existsb (Ascii.eqb c) (to_list s).

(** [[\x00-\x7F]] *)
Definition ascii_range (c : ascii) : bool := code c <=? 127.

End Regex.

(** ** The type tag registry *)

(** Modelled from the spec: the enumeration [DataTypes] of
    [core.models], which the models import and which is not part of the
    sources at hand. The spec describes it as a closed set of NGSI
    value-type tags: text, number, boolean, structured-value, relationship,
    date-time and geo-point. Like the enumerations of the models it mixes
    in [str]: a member is a string equal to its value, and a different
    object from every plain string. *)
Inductive DataTypes : Type :=
  | TEXT
  | NUMBER
  | BOOLEAN
  | STRUCTUREDVALUE
  | RELATIONSHIP
  | DATETIME
  | GEOPOINT.

Definition all_tags : list DataTypes :=
  [TEXT; NUMBER; BOOLEAN; STRUCTUREDVALUE; RELATIONSHIP; DATETIME; GEOPOINT].

(** The value of an enumeration member. *)
Definition tag_value (t : DataTypes) : string :=
  match t with
  | TEXT => "Text"
  | NUMBER => "Number"
  | BOOLEAN => "Boolean"
  | STRUCTUREDVALUE => "StructuredValue"
  | RELATIONSHIP => "Relationship"
  | DATETIME => "DateTime"
  | GEOPOINT => "geo:point"
  end.

(** [DataTypes(s)]: the member whose value is [s]. *)
Definition tag_of_value (s : string) : option DataTypes :=
  find (fun t => String.eqb (tag_value t) s) all_tags.

(** [a is b] on members of the enumeration. *)
Definition tag_is (a b : DataTypes) : bool :=
  String.eqb (tag_value a) (tag_value b).

(** What the field [type] of an attribute holds: the member [TEXT] it has
    by default, or the plain string that passed its check. *)
Inductive type_tag : Type :=
  | Member (t : DataTypes)
  | Plain (s : string).

(** The string a type is equal to. *)
Definition tag_str (x : type_tag) : string :=
  match x with
  | Member t => tag_value t
  | Plain s => s
  end.

(** The plain string that is the value of a member. *)
Definition plain_tag (t : DataTypes) : type_tag := Plain (tag_value t).

Coercion plain_tag : DataTypes >-> type_tag.

(** [x == t] for a member [t]: equality of strings. *)
Definition tag_eq (x : type_tag) (t : DataTypes) : bool :=
  String.eqb (tag_str x) (tag_value t).

(** ** Exceptions *)

(** What a validator function can raise. *)
Inductive exc : Type :=
  | ValueError
  | TypeError
  | OverflowError
  | KeyError (key : string).

(** One entry of a pydantic [ValidationError]. *)
Inductive field_error : Type :=
  | MissingError
  | NoneIsNotAllowedError
  | EnumError
  | ScalarError          (* not a float, int, bool or str *)
  | DictError
  | AnyStrMinLengthError
  | AnyStrMaxLengthError
  | StrRegexError
  | StrError
  | Raised (e : exc).    (* ValueError or TypeError from a validator *)

Inductive pyerror : Type :=
  | ValidationError (model : string) (errors : list (string * field_error))
  | Uncaught (e : exc)
  | AttributeError (attr : string)
  | NameError (name : string)
  | ConfigError (msg : string).

Inductive result (A : Type) : Type :=
  | Ok (a : A)
  | Raise (e : pyerror).

Arguments Ok {A} a.
Arguments Raise {A} e.

Definition bind {A B : Type} (m : result A) (k : A -> result B) : result B :=
  match m with
  | Ok a => k a
  | Raise e => Raise e
  end.

Notation "'let*' x ':=' m 'in' k" := (bind m (fun x => k))
  (at level 10, x name, m at level 100, k at level 200).

Definition is_ok {A : Type} (m : result A) : bool :=
  match m with
  | Ok _ => true
  | Raise _ => false
  end.

(** ** Python values *)

Module Py.

Export PyFloat.

(** The scalars of [Union[float, int, bool, str]]. *)
Inductive scalar : Type :=
  | SFloat (x : pyfloat)
  | SInt (n : Z)
  | SBool (b : bool)
  | SStr (s : string).

(** A value handed to a model or found in its dictionary: [None], a
    scalar, a member of [DataTypes], or a dictionary with string keys. *)
Inductive value : Type :=
  | VNone
  | VScalar (v : scalar)
  | VEnum (t : DataTypes)
  | VDict (items : list (string * value)).

Definition dict (V : Type) : Type := list (string * V).

(** [d.get(k)] *)
Fixpoint get {V : Type} (k : string) (d : dict V) : option V :=
  match d with
  | [] => None
  | (k', v) :: r => if String.eqb k k' then Some v else get k r
  end.

(** [d[k] = v]: an existing key keeps its place, a new one goes last. *)
Fixpoint set {V : Type} (k : string) (v : V) (d : dict V) : dict V :=
  match d with
  | [] => [(k, v)]
  | (k', v') :: r => if String.eqb k k' then (k, v) :: r else (k', v') :: set k v r
  end.

Definition keys {V : Type} (d : dict V) : list string := map fst d.

(** [k in l] for a list of strings. *)
Definition mem (k : string) (l : list string) : bool :=
  existsb (String.eqb k) l.

(** [{k: d[k] for k in order}]: the items of [d] in the order in which a
    set of its keys is iterated. *)
Definition arrange {V : Type} (order : list string) (d : dict V) : dict V :=
  omap (fun k => match get k d with
                 | Some v => Some (k, v)
                 | None => None
                 end) order.

(** [bool(v)] *)
Definition bool_ (v : scalar) : bool :=
  match v with
  | SFloat x => truth x
  | SInt n => negb (n =? 0)
  | SBool b => b
  | SStr s => negb (String.eqb s "")
  end.

(** [float(v)] *)
Definition float_ (v : scalar) : pyfloat + exc :=
  match v with
  | SFloat x => inl x
  | SInt n =>
      match PyFloat.of_int n with
      | Some x => inl x
      | None => inr OverflowError
      end
  | SBool b => inl (of_bool b)
  | SStr s =>
      match PyFloat.of_string s with
      | Some x => inl x
      | None => inr ValueError
      end
  end.

(** [str(v)] *)
Definition str_ (v : scalar) : string :=
  match v with
  | SFloat x => repr x
  | SInt n => PyStr.of_int n
  | SBool b => if b then "True" else "False"
  | SStr s => s
  end.

(** [dict(v)] as pydantic's dictionary validator calls it: a dictionary is
    kept, the empty string is an empty iterable, nothing else converts. *)
Definition dict_ (v : value) : option (dict value) :=
  match v with
  | VDict d => Some d
  | VScalar (SStr "") => Some []
  | _ => None
  end.

End Py.

(** ** Field types of pydantic *)

Module Pydantic.

Import Py.

(** The strings the validator of [bool] reads as a boolean, whatever
    their case. *)
Definition bool_word (s : string) : option bool :=
  let w := PyStr.of_list (map PyStr.lower (PyStr.to_list s)) in
  if existsb (String.eqb w) ["1"; "on"; "t"; "true"; "y"; "yes"] then Some true
  else if existsb (String.eqb w) ["0"; "off"; "f"; "false"; "n"; "no"]
  then Some false
  else None.

(** A scalar through [Union[float, int, bool, str]]: the members are tried
    from left to right and the first that accepts the value keeps it.
    The validator of [float] returns a float as it is and calls [float]
    on everything else; it catches [TypeError] and [ValueError] only, so
    the [OverflowError] of an integer too large leaves the union. A
    string that is no float is tried as an [int], then as one of the
    words of [bool], and is kept as a string otherwise. *)
Definition union_coerce (v : scalar) : scalar + exc :=
  match v with
  | SFloat x => inl (SFloat x)
  | SInt n =>
      match PyFloat.of_int n with
      | Some x => inl (SFloat x)
      | None => inr OverflowError
      end
  | SBool b => inl (SFloat (of_bool b))
  | SStr s =>
      match PyFloat.of_string s with
      | Some x => inl (SFloat x)
      | None =>
          match PyInt.of_string s with
          | Some n => inl (SInt n)
          | None =>
              match bool_word s with
              | Some b => inl (SBool b)
              | None => inl (SStr s)
              end
          end
      end
  end.

(** The validator of [str]: a string is kept, a member of an enumeration
    gives its value, a number gives [str] of it; nothing else is a
    string. *)
Definition str_validator (v : value) : option string :=
  match v with
  | VScalar s => Some (str_ s)
  | VEnum t => Some (tag_value t)
  | VNone | VDict _ => None
  end.

End Pydantic.

(** ** Constrained string fields

    [Field(max_length=256, min_length=1, regex=...)] on a [str] field: the
    length bounds are checked first, then [re.match] with the pattern. *)

Module Patterns.

Import Regex.

(** One character of the subject: [(?![...])[\x00-\x7F]] *)
Definition safe_char (excluded : string) : regex :=
  Cat (NotAhead (Chars (one_of excluded))) (Chars ascii_range).

(** [^((?![?&#/])[\x00-\x7F])*$]: entity id, entity type, attribute type. *)
Definition fiware_safe : regex :=
  Cat Bol (Cat (Star (safe_char "?&#/")) Eol).

(** [^((?![?&#/\*])[\x00-\x7F])*$]: metadata type and metadata name. *)
Definition fiware_safe_star : regex :=
  Cat Bol (Cat (Star (safe_char "?&#/*")) Eol).

(** The group of alternatives [id], [type], [geo:distance] and an escaped
    star. *)
Definition reserved : regex :=
  Alt (Str (PyStr.to_list "id"))
    (Alt (Str (PyStr.to_list "type"))
       (Alt (Str (PyStr.to_list "geo:distance")) (Str (PyStr.to_list "*")))).

(** The attribute name: the pattern of the entity id in a group, followed
    by a negative lookahead on the group of reserved words. *)
Definition attribute_name : regex :=
  Cat fiware_safe (NotAhead reserved).

End Patterns.

Definition constr (pattern : Regex.regex) (s : string) : string + field_error :=
  let n := Z.of_nat (String.length s) in
  if n <? 1 then inr AnyStrMinLengthError
  else if 256 <? n then inr AnyStrMaxLengthError
  else if Regex.re_match pattern s then inl s
  else inr StrRegexError.

(** A field whose declared class is a string and which carries the
    string constraints, as [type] of an attribute or of a metadata does:
    the constraints make it a constrained string, with no test of
    membership in [DataTypes]. [None] is refused, the validator of [str]
    comes first, then the constraints. *)
Definition constrained_str (pattern : Regex.regex) (v : Py.value)
  : string + field_error :=
  match v with
  | Py.VNone => inr NoneIsNotAllowedError
  | _ =>
      match Pydantic.str_validator v with
      | Some s => constr pattern s
      | None => inr StrError
      end
  end.

(** What pydantic does with an exception raised by a validator: a
    [ValueError] or [TypeError] becomes an entry of the validation error,
    anything else leaves the constructor as it is. *)
Definition caught (e : exc) : option field_error :=
  match e with
  | ValueError | TypeError => Some (Raised e)
  | _ => None
  end.

(** The state of a model under validation: the fields validated so far,
    or the errors collected so far. *)
Definition add_error {A : Type} (loc : string) (r : A + field_error)
    (errs : list (string * field_error)) : list (string * field_error) :=
  match r with
  | inl _ => errs
  | inr e => (errs ++ [(loc, e)])%list
  end.

Definition validated {A : Type} (r : A + field_error) : option A :=
  match r with
  | inl a => Some a
  | inr _ => None
  end.

(** ** [ContextMetadata] *)

Module ContextMetadata.

Record t : Type := Build {
  type : option string;
  value : option DataTypes
}.

(** The field [type]: optional, without default, and a constrained
    string; absent or [None] gives [None]. *)
Definition optional_str (pattern : Regex.regex) (v : option Py.value)
  : option string + field_error :=
  match v with
  | None | Some Py.VNone => inl None
  | Some raw =>
      match constrained_str pattern raw with
      | inl s => inl (Some s)
      | inr e => inr e
      end
  end.

(** The field [value]: optional, without default, of class [DataTypes]
    and without constraints, so that the supplied value has to be a
    member or the value of one. *)
Definition optional_member (v : option Py.value)
  : option DataTypes + field_error :=
  match v with
  | None | Some Py.VNone => inl None
  | Some (Py.VEnum t) => inl (Some t)
  | Some (Py.VScalar (Py.SStr s)) =>
      match tag_of_value s with
      | Some t => inl (Some t)
      | None => inr EnumError
      end
  | Some _ => inr EnumError
  end.

(** The constructor of [ContextMetadata] on the keyword arguments [kw]. *)
Definition init (kw : Py.dict Py.value) : result t :=
  let r_type := optional_str Patterns.fiware_safe_star (Py.get "type" kw) in
  let r_value := optional_member (Py.get "value" kw) in
  match r_type, r_value with
  | inl ty, inl va => Ok (Build ty va)
  | _, _ =>
      Raise (ValidationError "ContextMetadata"
               (add_error "value" r_value (add_error "type" r_type [])))
  end.

End ContextMetadata.

(** ** [ContextAttribute] *)

Module ContextAttribute.

(** What the [metadata] field can hold after validation: the validator
    returns its argument, [None], or a [ContextMetadata]. *)
Inductive metadata_t : Type :=
  | Raw (v : Py.value)
  | Model (m : ContextMetadata.t).

Record t : Type := Build {
  type : type_tag;
  value : Py.scalar;
  metadata : metadata_t
}.

(** The fields validated before the one at hand; [values['type']] is
    missing when the validation of [type] failed. *)
Definition values_t : Type := option type_tag.

(** [validate_value_type(cls, v, values)] *)
Definition validate_value_type (v : Py.scalar) (values : values_t)
  : Py.scalar + exc :=
  match values with
  | None => inr (KeyError "type")
  | Some type_ =>
      if tag_eq type_ BOOLEAN then inl (Py.SBool (Py.bool_ v))
      else if tag_eq type_ NUMBER then
        match Py.float_ v with
        | inl x => inl (Py.SFloat x)
        | inr e => inr e
        end
      else inl (Py.SStr (Py.str_ v))
  end.

(** [ContextMetadata] called on the unpacked [v]: unpacking needs a
    mapping; a validation error of the inner model is a [ValueError]. *)
Definition metadata_of (v : Py.value) : metadata_t + exc :=
  match v with
  | Py.VDict kw =>
      match ContextMetadata.init kw with
      | Ok m => inl (Model m)
      | Raise _ => inr ValueError
      end
  | _ => inr TypeError
  end.

(** [validate_metadata_type(cls, v)]: the [else] belongs to the outer
    [if], so a dictionary that is not empty falls off the end of the
    function, which returns [None]. *)
Definition validate_metadata_type (v : Py.value) : metadata_t + exc :=
  match v with
  | Py.VDict d =>
      match d with
      | [] => inl (Raw v)
      | _ => inl (Raw Py.VNone)
      end
  | _ => metadata_of v
  end.

(** The scalar a supplied value is for the union: a member of
    [DataTypes] is a string. *)
Definition as_scalar (raw : Py.value) : option Py.scalar :=
  match raw with
  | Py.VScalar v => Some v
  | Py.VEnum t => Some (Py.SStr (tag_value t))
  | Py.VNone | Py.VDict _ => None
  end.

(** The field [value], of the declared type [Union[float, int, bool,
    str]] and without default. A missing field and [None] are reported
    without calling anything; a scalar goes through the union, whose
    [OverflowError] leaves the constructor; the validator then sees the
    coerced scalar and the fields validated before it. *)
Definition validate_value (raw : option Py.value) (values : values_t)
  : result (Py.scalar + field_error) :=
  match raw with
  | None => Ok (inr MissingError)
  | Some Py.VNone => Ok (inr NoneIsNotAllowedError)
  | Some r =>
      match as_scalar r with
      | None => Ok (inr ScalarError)
      | Some v =>
          match Pydantic.union_coerce v with
          | inr e => Raise (Uncaught e)
          | inl u =>
              match validate_value_type u values with
              | inl r => Ok (inl r)
              | inr e =>
                  match caught e with
                  | Some fe => Ok (inr fe)
                  | None => Raise (Uncaught e)
                  end
              end
          end
      end
  end.

Definition run_metadata_validator (v : Py.value) : metadata_t + field_error :=
  match validate_metadata_type v with
  | inl m => inl m
  | inr e => inr (Raised e)
  end.

(** The declared type [Optional[Union[Dict, ContextMetadata]]] with
    default [{}]: a missing field takes the default unvalidated, [None] is
    allowed and goes to the validator, anything else has to convert to a
    dictionary first. *)
Definition validate_metadata (raw : option Py.value)
  : metadata_t + field_error :=
  match raw with
  | None => inl (Raw (Py.VDict []))
  | Some Py.VNone => run_metadata_validator Py.VNone
  | Some v =>
      match Py.dict_ v with
      | Some d => run_metadata_validator (Py.VDict d)
      | None => inr DictError
      end
  end.

(** The field [type]: a string constrained by the pattern of ids, with
    the member [DataTypes.TEXT] as default; a default is not validated. *)
Definition validate_type (raw : option Py.value) : type_tag + field_error :=
  match raw with
  | None => inl (Member TEXT)
  | Some v =>
      match constrained_str Patterns.fiware_safe v with
      | inl s => inl (Plain s)
      | inr e => inr e
      end
  end.

(** The three fields in the order of their declaration, and the errors
    in that order. *)
Definition validate_fields (kw : Py.dict Py.value)
  : result (option t * list (string * field_error)) :=
  let r_type := validate_type (Py.get "type" kw) in
  let* r_value := validate_value (Py.get "value" kw) (validated r_type) in
  let r_meta := validate_metadata (Py.get "metadata" kw) in
  let errs :=
    add_error "metadata" r_meta
      (add_error "value" r_value (add_error "type" r_type [])) in
  match r_type, r_value, r_meta with
  | inl ty, inl va, inl me => Ok (Some (Build ty va me), errs)
  | _, _, _ => Ok (None, errs)
  end.

(** The constructor of [ContextAttribute] on keyword arguments. *)
Definition init (kw : Py.dict Py.value) : result t :=
  let* p := validate_fields kw in
  let '(r, errs) := p in
  match r with
  | Some a => Ok a
  | None => Raise (ValidationError "ContextAttribute" errs)
  end.

(** [ContextAttribute.parse_obj(obj)]: what is no dictionary and does not
    convert to one is reported as a [TypeError] of the whole object. *)
Definition parse_obj (obj : Py.value) : result t :=
  match Py.dict_ obj with
  | Some kw => init kw
  | None =>
      Raise (ValidationError "ContextAttribute" [("__root__", Raised TypeError)])
  end.

Definition dump_type (x : type_tag) : Py.value :=
  match x with
  | Member t => Py.VEnum t
  | Plain s => Py.VScalar (Py.SStr s)
  end.

Definition dump_str (s : option string) : Py.value :=
  match s with
  | Some x => Py.VScalar (Py.SStr x)
  | None => Py.VNone
  end.

Definition dump_tag (t : option DataTypes) : Py.value :=
  match t with
  | Some x => Py.VEnum x
  | None => Py.VNone
  end.

Definition dump_metadata (m : metadata_t) : Py.value :=
  match m with
  | Raw v => v
  | Model md =>
      Py.VDict [("type", dump_str (ContextMetadata.type md));
                ("value", dump_tag (ContextMetadata.value md))]
  end.

(** [a.dict()]: the fields as they are held; a member of the enumeration
    stays the member. *)
Definition dict (a : t) : Py.dict Py.value :=
  [("type", dump_type (type a));
   ("value", Py.VScalar (value a));
   ("metadata", dump_metadata (metadata a))].

End ContextAttribute.

(** ** [NamedContextAttribute] *)

Module NamedContextAttribute.

Record t : Type := Build {
  name : string;
  attribute : ContextAttribute.t
}.

(** The constructor on [name] and the other keyword arguments: the
    inherited fields come first, [name] last. *)
Definition init (name_ : string) (kw : Py.dict Py.value) : result t :=
  let* p := ContextAttribute.validate_fields kw in
  let '(r, errs) := p in
  let r_name := constr Patterns.attribute_name name_ in
  match r, r_name with
  | Some a, inl n => Ok (Build n a)
  | _, _ =>
      Raise (ValidationError "NamedContextAttribute" (add_error "name" r_name errs))
  end.

End NamedContextAttribute.

(** ** [ContextEntity] *)

Module ContextEntity.

Record t : Type := Build {
  id : string;
  type : string;
  attributes : Py.dict ContextAttribute.t
}.

(** [ContextEntity.__fields__]: the declared fields. The attributes are
    extra fields, which the configuration allows. *)
Definition fields : list string := ["id"; "type"].

(** The named parameters of [__init__]: a keyword argument of one of
    these names never reaches [**data], the call fails with [TypeError]. *)
Definition parameters : list string := ["self"; "id"; "type"].

(** [_validate_properties(cls, data)]: the dictionary comprehension stops
    at the first [parse_obj] that raises. *)
Fixpoint _validate_properties (data : Py.dict Py.value)
  : result (Py.dict ContextAttribute.t) :=
  match data with
  | [] => Ok []
  | (key, attr) :: rest =>
      if Py.mem key fields then _validate_properties rest
      else
        let* a := ContextAttribute.parse_obj attr in
        let* r := _validate_properties rest in
        Ok ((key, a) :: r)
  end.

(** The validation of the two declared fields by the base constructor. *)
Definition validate_identity (id_ type_ : string)
  : list (string * field_error) :=
  add_error "type" (constr Patterns.fiware_safe type_)
    (add_error "id" (constr Patterns.fiware_safe id_) []).

(** [ContextEntity(id, type, **data)]. The base constructor collects the
    names of the extra fields in a set and stores them one by one as it
    iterates that set: [order] is the order of that iteration, which
    follows the hashes of the names and not the order of [data]. *)
Definition init (order : list string) (id_ type_ : string)
    (data : Py.dict Py.value) : result t :=
  if existsb (fun k => Py.mem k parameters) (Py.keys data)
  then Raise (Uncaught TypeError)
  else
    let* attrs := _validate_properties data in
    match validate_identity id_ type_ with
    | [] => Ok (Build id_ type_ (Py.arrange order attrs))
    | errs => Raise (ValidationError "ContextEntity" errs)
    end.

(** The dictionary [dict()] builds: the flat object, attributes turned
    into dictionaries. *)
Definition dict (e : t) : Py.dict Py.value :=
  ("id", Py.VScalar (Py.SStr (id e)))
  :: ("type", Py.VScalar (Py.SStr (type e)))
  :: map (fun '(k, a) => (k, Py.VDict (ContextAttribute.dict a))) (attributes e).

(** The names [self.dict()] looks up on the instance: the method and the
    methods it calls on [self]. An attribute of one of these names is
    found first, and is not callable. *)
Definition dict_members : list string :=
  ["dict"; "_iter"; "_calculate_keys"; "_get_value"].

(** [self.dict()] *)
Definition call_dict (e : t) : result (Py.dict Py.value) :=
  if existsb (fun k => Py.mem k dict_members) (Py.keys (attributes e))
  then Raise (Uncaught TypeError)
  else Ok (dict e).

(** [value.get('type') is DataTypes.RELATIONSHIP]: only a dictionary has
    a [get], and only the member itself is the member; a plain string
    that reads [Relationship] is another object. *)
Definition type_is_relationship (v : Py.value) : result bool :=
  match v with
  | Py.VDict d =>
      Ok match Py.get "type" d with
         | Some (Py.VEnum t) => tag_is t RELATIONSHIP
         | _ => false
         end
  | _ => Raise (AttributeError "get")
  end.

(** Unpacking with the double star needs a mapping. *)
Definition unpack (v : Py.value) : result (Py.dict Py.value) :=
  match v with
  | Py.VDict d => Ok d
  | _ => Raise (Uncaught TypeError)
  end.

(** The comprehension shared by the four views: the items of [self.dict()]
    whose key is not a declared field and whose type tag is, or is not,
    the relationship tag, each rebuilt by [build]. *)
Fixpoint select {A : Type} (relationships : bool)
    (build : string -> Py.dict Py.value -> result A)
    (items : Py.dict Py.value) : result (list A) :=
  match items with
  | [] => Ok []
  | (key, value) :: rest =>
      if Py.mem key fields then select relationships build rest
      else
        let* rel := type_is_relationship value in
        if Bool.eqb rel relationships then
          let* kw := unpack value in
          let* a := build key kw in
          let* r := select relationships build rest in
          Ok (a :: r)
        else select relationships build rest
  end.

Inductive view : Type :=
  | AsDict (d : Py.dict ContextAttribute.t)
  | AsList (l : list NamedContextAttribute.t).

Definition views (relationships : bool) (e : t) (format : string) : result view :=
  if String.eqb format "dict" then
    let* items := call_dict e in
    let* d := select relationships
                (fun key kw => let* a := ContextAttribute.init kw in Ok (key, a))
                items in
    Ok (AsDict d)
  else
    let* items := call_dict e in
    let* l := select relationships NamedContextAttribute.init items in
    Ok (AsList l).

(** [get_properties(self, format)] *)
Definition get_properties (e : t) (format : string) : result view :=
  views false e format.

(** [get_relationships(self, format)] *)
Definition get_relationships (e : t) (format : string) : result view :=
  views true e format.

(** [self.__setattr__(name, value)] with a [ContextAttribute] as value:
    a declared field is validated on assignment, and a model is not a
    string; any other name is an extra field and is stored as it is. *)
Definition __setattr__ (e : t) (name : string) (value : ContextAttribute.t)
  : result t :=
  if Py.mem name fields
  then Raise (ValidationError "ContextEntity" [(name, StrError)])
  else Ok (Build (id e) (type e) (Py.set name value (attributes e))).

(** A pydantic model is no mapping: it has no [keys], so unpacking it
    with the double star raises [TypeError]. *)
Definition unpack_model (attr : NamedContextAttribute.t)
  : result (Py.dict Py.value) :=
  Raise (Uncaught TypeError).

(** The comprehension of the list branch, filling a dictionary from left
    to right: the name of each element, and a [ContextAttribute] built
    from the unpacked element. *)
Fixpoint normalize (acc : Py.dict ContextAttribute.t)
    (attrs : list NamedContextAttribute.t)
  : result (Py.dict ContextAttribute.t) :=
  match attrs with
  | [] => Ok acc
  | attr :: rest =>
      let* kw := unpack_model attr in
      let* a := ContextAttribute.init kw in
      normalize (Py.set (NamedContextAttribute.name attr) a acc) rest
  end.

(** The loop over [attrs.items()]: the entity as the loop leaves it, and
    the exception that ended it, if any. *)
Fixpoint assign_all (e : t) (attrs : Py.dict ContextAttribute.t)
  : t * option pyerror :=
  match attrs with
  | [] => (e, None)
  | (key, attr) :: rest =>
      match __setattr__ e key attr with
      | Ok e' => assign_all e' rest
      | Raise err => (e, Some err)
      end
  end.

(** [add_properties(self, attrs)] *)
Definition add_properties (e : t) (attrs : view) : t * option pyerror :=
  match attrs with
  | AsList l =>
      match normalize [] l with
      | Ok d => assign_all e d
      | Raise err => (e, Some err)
      end
  | AsDict d => assign_all e d
  end.

End ContextEntity.

(** ** The model factory *)

Module Factory.

(** A model made by [create_model] with [ContextEntity] as base: its name
    and the names of the fields added, all required and of type
    [ContextAttribute]. *)
Record EntityModel : Type := Build {
  model_name : string;
  required : list string
}.

(** The field the validator [validate_test] is attached to. *)
Definition validated_field : string := "temperature".

(** [name or 'GeneratedContextEntity'] *)
Definition name_or_default (name : option string) : string :=
  match name with
  | None | Some "" => "GeneratedContextEntity"
  | Some n => n
  end.

(** [name.startswith('_')] *)
Definition starts_with_underscore (name : string) : bool :=
  match name with
  | String "_" _ => true
  | _ => false
  end.

(** The public attributes of [ContextEntity] as a class: those of
    pydantic's [BaseModel] and the three methods of the entity. *)
Definition model_attributes : list string :=
  ["Config"; "construct"; "copy"; "dict"; "from_orm"; "json"; "parse_file";
   "parse_obj"; "parse_raw"; "schema"; "schema_json"; "update_forward_refs";
   "validate"; "get_properties"; "add_properties"; "get_relationships"].

(** How the class under creation takes the annotated names, one after
    the other: a name that starts with an underscore is no field and is
    passed over, [__root__] apart; a name that an attribute of the base
    class has already is refused with [NameError]. *)
Fixpoint declare (properties : list string) : result (list string) :=
  match properties with
  | [] => Ok []
  | key :: rest =>
      if starts_with_underscore key && negb (String.eqb key "__root__")
      then declare rest
      else if Py.mem key model_attributes then Raise (NameError key)
      else
        let* r := declare rest in
        Ok (key :: r)
  end.

(** [create_context_entity_model(name, data)], called for the first time
    in a process; both arguments default to [None]. The function
    [username_alphanumeric] is attached as validator [validate_test] to
    the field [temperature]. The fields are put into the namespace of the
    class after the validator, so that a key [validate_test] takes its
    place. The class refuses [__root__] beside other fields, and a
    validator attached to a name that is not a field of the model. *)
Definition create_context_entity_model (name : option string)
    (data : option (Py.dict Py.value)) : result EntityModel :=
  match data with
  | None => Raise (AttributeError "keys")
  | Some d =>
      let properties :=
        List.filter (fun key => negb (Py.mem key ContextEntity.fields)) (Py.keys d) in
      let* declared := declare properties in
      if Py.mem "__root__" declared then Raise (Uncaught ValueError)
      else if Py.mem "validate_test" properties
              || Py.mem validated_field (ContextEntity.fields ++ declared)%list
      then Ok (Build (name_or_default name) declared)
      else Raise (ConfigError "Validators defined with incorrect fields: username_alphanumeric")
  end.

(** Calling the generated model: the constructor of [ContextEntity] is
    inherited, and every added field has to be present. The added fields
    are stored first, in the order of the model; the other attributes
    are extra fields and follow in the order [order] in which their set
    is iterated. *)
Definition init (m : EntityModel) (order : list string) (id_ type_ : string)
    (data : Py.dict Py.value) : result ContextEntity.t :=
  if existsb (fun k => Py.mem k ContextEntity.parameters) (Py.keys data)
  then Raise (Uncaught TypeError)
  else
    let* attrs := ContextEntity._validate_properties data in
    let missing :=
      map (fun k => (k, MissingError))
        (List.filter (fun k => negb (Py.mem k (Py.keys attrs))) (required m)) in
    match (ContextEntity.validate_identity id_ type_ ++ missing)%list with
    | [] =>
        Ok (ContextEntity.Build id_ type_
              (Py.arrange (required m) attrs
               ++ Py.arrange order
                    (List.filter (fun p => negb (Py.mem (fst p) (required m))) attrs))%list)
    | errs => Raise (ValidationError (model_name m) errs)
    end.

End Factory.

(** ** [NamedContextMetadata] *)

Module NamedContextMetadata.

Record t : Type := Build {
  name : string;
  metadata : ContextMetadata.t
}.

(** The constructor on [name] and the other keyword arguments: the
    inherited fields [type] and [value] come first, [name] last. *)
Definition init (name_ : string) (kw : Py.dict Py.value) : result t :=
  let r_type :=
    ContextMetadata.optional_str Patterns.fiware_safe_star (Py.get "type" kw) in
  let r_value := ContextMetadata.optional_member (Py.get "value" kw) in
  let r_name := constr Patterns.fiware_safe_star name_ in
  match r_type, r_value, r_name with
  | inl ty, inl va, inl n => Ok (Build n (ContextMetadata.Build ty va))
  | _, _, _ =>
      Raise (ValidationError "NamedContextMetadata"
               (add_error "name" r_name
                  (add_error "value" r_value (add_error "type" r_type []))))
  end.

End NamedContextMetadata.

(** ** [Subject] *)

Module Subject.

(** What the validator of [entities] raises: a bare [KeyError], or the
    [AssertionError] of one of its three assertions. *)
Inductive failure : Type :=
  | KeyErrorRaised
  | AssertionFailed.

(** An element of [entities]: a [Dict[str, str]]. *)
Definition item : Type := Py.dict string.

Definition allowed_keys : list string := ["id"; "idPattern"; "type"; "typePattern"].

(** The inner loop over [item.keys()]. *)
Fixpoint check_keys (ks : list string) : option failure :=
  match ks with
  | [] => None
  | key :: rest =>
      if negb (Py.mem key allowed_keys) then Some KeyErrorRaised
      else check_keys rest
  end.

(** The body of the outer loop for one item: the loop over the keys, then
    the three assertions. *)
Definition check_item (it : item) : option failure :=
  let ks := Py.keys it in
  match check_keys ks with
  | Some f => Some f
  | None =>
      if negb (Py.mem "id" ks || Py.mem "idPattern" ks) then Some AssertionFailed
      else if Py.mem "id" ks && negb (negb (Py.mem "idPattern" ks))
      then Some AssertionFailed
      else if Py.mem "type" ks && negb (negb (Py.mem "typePattern" ks))
      then Some AssertionFailed
      else None
  end.

(** The outer loop over the items. *)
Fixpoint check_items (v : list item) : option failure :=
  match v with
  | [] => None
  | it :: rest =>
      match check_item it with
      | Some f => Some f
      | None => check_items rest
      end
  end.

(** [validate_entities(cls, v)] *)
Definition validate_entities (v : list item) : list item + failure :=
  match check_items v with
  | Some f => inr f
  | None => inl v
  end.

End Subject.

(** * Vocabulary of the statements *)

Section Vocabulary.

Import Regex Patterns Py.

(** A string and an integer as raw values. *)
Definition text (s : string) : Py.value := Py.VScalar (Py.SStr s).

Definition int (n : Z) : Py.value := Py.VScalar (Py.SInt n).

(** A character the pattern [safe_char excluded] lets through. *)
Definition allowed (excluded : string) (c : ascii) : bool :=
  negb (one_of excluded c) && ascii_range c.

(** The states the starred group can stop in: the subject, and every rest
    of it reached over allowed characters only. *)
Fixpoint reachable (excluded : string) (b : bool) (l : list ascii)
  : list state :=
  (b, l) ::
  match l with
  | c :: r => if allowed excluded c then reachable excluded false r else []
  | [] => []
  end.

(** [l] is not empty. *)
Definition nonempty {A : Type} (l : list A) : bool :=
  match l with
  | [] => false
  | _ => true
  end.

(** The keyword arguments that reach [**data]: none of them has the name
    of a parameter of the constructor. *)
Definition keyword_data (data : Py.dict Py.value) : Prop :=
  existsb (fun k => mem k ContextEntity.parameters) (keys data) = false.

(** No attribute has the name of a declared field. *)
Definition extra_names (attrs : Py.dict ContextAttribute.t) : Prop :=
  Forall (fun p => mem (fst p) ContextEntity.fields = false) attrs.

(** An item of [self.dict()] for an attribute. *)
Definition dump (p : string * ContextAttribute.t) : string * Py.value :=
  let '(k, a) := p in (k, VDict (ContextAttribute.dict a)).

(** The element the dictionary views build for a key. *)
Definition build_item (key : string) (kw : Py.dict Py.value)
  : result (string * ContextAttribute.t) :=
  let* a := ContextAttribute.init kw in Ok (key, a).

(** Every attribute built by [build] from its name and its dictionary,
    from left to right, up to the first that raises. *)
Fixpoint build_all {A : Type} (build : string -> Py.dict Py.value -> result A)
    (attrs : Py.dict ContextAttribute.t) : result (list A) :=
  match attrs with
  | [] => Ok []
  | (k, a) :: r =>
      let* x := build k (ContextAttribute.dict a) in
      let* xs := build_all build r in
      Ok (x :: xs)
  end.

(** The type a stored attribute is rebuilt with: the plain string it is
    equal to. *)
Definition replain (a : ContextAttribute.t) : ContextAttribute.t :=
  ContextAttribute.Build (Plain (tag_str (ContextAttribute.type a)))
    (ContextAttribute.value a) (ContextAttribute.metadata a).

(** The attribute built again from its own dictionary, passed as keyword
    arguments. *)
Definition rebuild (a : ContextAttribute.t) : result ContextAttribute.t :=
  ContextAttribute.init (ContextAttribute.dict a).

(** A value that goes through the union and the validator of a type
    unchanged: a [bool] under [Boolean], a [float] under [Number], and
    under any other type a string that is [str] of what the union reads
    it as. *)
Definition settled_value (x : type_tag) (v : scalar) : bool :=
  match v with
  | SBool _ => tag_eq x BOOLEAN
  | SFloat _ => negb (tag_eq x BOOLEAN) && tag_eq x NUMBER
  | SStr s =>
      negb (tag_eq x BOOLEAN) && negb (tag_eq x NUMBER)
      && match Pydantic.union_coerce (SStr s) with
         | inl u => String.eqb (str_ u) s
         | inr _ => false
         end
  | SInt _ => false
  end.

(** An attribute that is rebuilt from its dictionary as it is, up to the
    class of its type: its type passes the check of the field, its value
    is settled and its metadata is the empty dictionary. *)
Definition settled (a : ContextAttribute.t) : bool :=
  match constr fiware_safe (tag_str (ContextAttribute.type a)) with
  | inl _ => true
  | inr _ => false
  end
  && settled_value (ContextAttribute.type a) (ContextAttribute.value a)
  && match ContextAttribute.metadata a with
     | ContextAttribute.Raw (VDict []) => true
     | _ => false
     end.

(** The type of no attribute is the member [RELATIONSHIP] itself. *)
Definition no_member_relationship (attrs : Py.dict ContextAttribute.t) : Prop :=
  Forall (fun p => ContextAttribute.type (snd p) <> Member RELATIONSHIP) attrs.

(** No attribute hides a method of the entity: no name is [dict] and
    none starts with an underscore. *)
Definition dict_callable (attrs : Py.dict ContextAttribute.t) : Prop :=
  Forall (fun p => String.eqb (fst p) "dict" = false
                   /\ Factory.starts_with_underscore (fst p) = false) attrs.

(** An attribute under its name, with the type it is rebuilt with. *)
Definition replain_item (p : string * ContextAttribute.t)
  : string * ContextAttribute.t :=
  (fst p, replain (snd p)).

(** [order] is an order in which the set of the names [ks] is iterated. *)
Definition iteration (order ks : list string) : Prop := Permutation order ks.

(** [e1 == e2] for two entities: the same id and type, and the same
    attribute under every name. *)
Definition same_entity (e1 e2 : ContextEntity.t) : Prop :=
  ContextEntity.id e1 = ContextEntity.id e2
  /\ ContextEntity.type e1 = ContextEntity.type e2
  /\ forall k, get k (ContextEntity.attributes e1) = get k (ContextEntity.attributes e2).


(** Id and type pass the validation of the declared fields. *)
Definition valid_identity (id_ type_ : string) : Prop :=
  ContextEntity.validate_identity id_ type_ = [].



(** Raw attributes of which the second has a value that is no number. *)
Definition sample_malformed : Py.dict Py.value :=
  [("temperature", VDict [("type", text "Number"); ("value", int 20)]);
   ("pressure", VDict [("type", text "Number"); ("value", text "abc")])].

(** The attribute of type [Number] holding the integer [n] as a float. *)
Definition number (n : Z) : ContextAttribute.t :=
  ContextAttribute.Build NUMBER
    (SFloat (PyFloat.of_decimal false n 0))
    (ContextAttribute.Raw (VDict [])).

(** The entity of the merge example: attributes [a: 1] and [b: 2]. *)
Definition room_ab : ContextEntity.t :=
  ContextEntity.Build "Bcn-Welt" "Room" [("a", number 1); ("b", number 2)].

(** Sample payloads for the factory, without and with [temperature]. *)
Definition humidity_sample : Py.dict Py.value :=
  [("id", text "Bcn-Welt"); ("type", text "Room");
   ("humidity", VDict [("type", text "Number"); ("value", int 40)])].

Definition temperature_sample : Py.dict Py.value :=
  [("id", text "Bcn-Welt"); ("type", text "Room");
   ("temperature", VDict [("type", text "Number"); ("value", int 20)]);
   ("humidity", VDict [("type", text "Number"); ("value", int 40)])].

(** Raw attributes of a flat entity whose attribute carries metadata. *)
Definition with_metadata : Py.dict Py.value :=
  [("temperature",
    VDict [("type", text "Number"); ("value", int 20);
           ("metadata",
            VDict [("unit", VDict [("type", text "Text"); ("value", text "C")])])])].

(** Raw attributes of a flat entity whose attribute carries a metadata
    that is no metadata: its type has a slash. *)
Definition with_bad_metadata : Py.dict Py.value :=
  [("temperature",
    VDict [("type", text "Number"); ("value", int 20);
           ("metadata", VDict [("type", text "no/such")])])].

(** The float 20.0. *)
Definition twenty : PyFloat.pyfloat := S754_finite false 5629499534213120 (-48).

(** The entity constructed from [with_metadata]. *)
Definition temperature_entity : ContextEntity.t :=
  ContextEntity.Build "Bcn-Welt" "Room"
    [("temperature",
      ContextAttribute.Build NUMBER (SFloat twenty) (ContextAttribute.Raw VNone))].

(** The raw attributes of the examples of the spec. *)
Definition room_payload : Py.dict Py.value :=
  [("temperature", VDict [("value", int 20); ("type", text "Number")])].

Definition owner_payload : Py.dict Py.value :=
  [("owner", VDict [("type", text "Relationship"); ("value", text "X")]);
   ("temp", VDict [("type", text "Number"); ("value", int 5)])].

(** The strings of 1 to 256 characters, all of them ASCII and none of
    them among [excluded]. *)
Definition name_chars (excluded : string) (s : string) : Prop :=
  (1 <= String.length s <= 256)%nat
  /\ forall c, In c (PyStr.to_list s) ->
       PyStr.code c <= 127 /\ ~ In c (PyStr.to_list excluded).

(** An attribute under its name. *)
Definition to_named (p : string * ContextAttribute.t) : NamedContextAttribute.t :=
  NamedContextAttribute.Build (fst p) (snd p).

(** The name passes the check of [NamedContextAttribute.name]. *)
Definition name_ok (k : string) : bool :=
  match constr attribute_name k with
  | inl _ => true
  | inr _ => false
  end.

(** What an optional member field makes of a raw value: nothing of an
    absent one or of [None], a tag of that tag or of its value. *)
Definition tag_field (raw : option Py.value) (res : option DataTypes) : Prop :=
  ((raw = None \/ raw = Some VNone) /\ res = None)
  \/ exists t, (raw = Some (text (tag_value t)) \/ raw = Some (VEnum t))
               /\ res = Some t.

(** What an optional constrained string field makes of a raw value:
    nothing of an absent one or of [None], and of any other value the
    string the validator of [str] reads, which has to be made of the
    characters allowed. *)
Definition str_field (excluded : string) (raw : option Py.value)
    (res : option string) : Prop :=
  ((raw = None \/ raw = Some VNone) /\ res = None)
  \/ exists v s, raw = Some v /\ v <> VNone
                 /\ Pydantic.str_validator v = Some s
                 /\ name_chars excluded s /\ res = Some s.

(** An element of [entities] the validator lets through: its keys are
    allowed ones, it has [id] or [idPattern] but not both, and not both
    [type] and [typePattern]. *)
Definition well_formed_item (it : Subject.item) : Prop :=
  (forall k, In k (keys it) -> In k Subject.allowed_keys)
  /\ (In "id" (keys it) \/ In "idPattern" (keys it))
  /\ ~ (In "id" (keys it) /\ In "idPattern" (keys it))
  /\ ~ (In "type" (keys it) /\ In "typePattern" (keys it)).

End Vocabulary.

(** * Properties *)

(** ** The field patterns *)

Section PatternFacts.

Import Regex Patterns.

Lemma ends_safe_char excluded b c r :
  ends (safe_char excluded) (b, c :: r) =
  if allowed excluded c then [(false, r)] else [].
Proof.
  unfold allowed. cbn.
  destruct (one_of excluded c); cbn; [reflexivity|].
  destruct (ascii_range c); reflexivity.
Qed.

Lemma star_safe_char excluded n :
  forall b l, (length l <= n)%nat ->
  star_iter (ends (safe_char excluded)) n (b, l) = reachable excluded b l.
Proof.
  induction n as [|k IH]; intros b l Hlen.
  - destruct l; [reflexivity | cbn in Hlen; lia].
  - destruct l as [|c r]; [reflexivity|].
    cbn [star_iter reachable]. rewrite ends_safe_char.
    destruct (allowed excluded c); [|reflexivity].
    cbn [List.filter]. unfold shorter. cbn [snd length].
    assert (Hlt : Nat.ltb (length r) (S (length r)) = true)
      by (apply Nat.ltb_lt; lia).
    rewrite Hlt. cbn [flat_map]. rewrite app_nil_r.
    rewrite IH by (cbn in Hlen; lia). reflexivity.
Qed.

Lemma nonempty_ends_eol (states : list state) :
  nonempty (flat_map (ends Eol) states) = existsb at_end states.
Proof.
  induction states as [|st rest IH]; [reflexivity|].
  cbn [flat_map existsb ends]. destruct (at_end st); cbn; [reflexivity | exact IH].
Qed.

Lemma all_at_end (states : list state) :
  Forall (fun st => at_end st = true) (flat_map (ends Eol) states).
Proof.
  induction states as [|st rest IH]; cbn [flat_map ends]; [constructor|].
  destruct (at_end st) eqn:E; cbn; [constructor; assumption | assumption].
Qed.

(** A newline is an allowed character, so stopping before a final
    newline is no more than stopping at the end. *)
Lemma exists_at_end excluded :
  allowed excluded "010" = true ->
  forall l b, existsb at_end (reachable excluded b l) = forallb (allowed excluded) l.
Proof.
  intros Hnl. induction l as [|c r IH]; intros b; [reflexivity|].
  cbn [reachable existsb forallb].
  destruct (allowed excluded c) eqn:Hc.
  - rewrite IH. cbn [andb].
    destruct r as [|c' r']; [apply orb_true_r | reflexivity].
  - cbn [existsb andb]. rewrite orb_false_r.
    destruct r as [|c' r']; [|reflexivity].
    unfold at_end. cbn [snd].
    destruct (Ascii.eqb c "010") eqn:E; [|reflexivity].
    apply Ascii.eqb_eq in E. subst c. congruence.
Qed.

Lemma ends_anchored excluded l :
  ends (Cat Bol (Cat (Star (safe_char excluded)) Eol)) (true, l) =
  flat_map (ends Eol) (reachable excluded true l).
Proof.
  cbn [ends fst flat_map snd]. rewrite app_nil_r.
  rewrite star_safe_char by reflexivity. reflexivity.
Qed.

Lemma anchored_match excluded s :
  allowed excluded "010" = true ->
  re_match (Cat Bol (Cat (Star (safe_char excluded)) Eol)) s =
  forallb (allowed excluded) (PyStr.to_list s).
Proof.
  intros Hnl. unfold re_match. rewrite ends_anchored.
  rewrite <- (exists_at_end excluded Hnl _ true), <- nonempty_ends_eol.
  reflexivity.
Qed.

(** The pattern of ids and types matches the strings made of ASCII
    characters other than [?], [&], [#] and [/]. *)
Lemma fiware_safe_match s :
  re_match fiware_safe s = forallb (allowed "?&#/") (PyStr.to_list s).
Proof. apply anchored_match. reflexivity. Qed.

Lemma fiware_safe_star_match s :
  re_match fiware_safe_star s = forallb (allowed "?&#/*") (PyStr.to_list s).
Proof. apply anchored_match. reflexivity. Qed.

(** At the end of the subject no reserved word can follow. *)
Lemma reserved_not_at_end st : at_end st = true -> ends reserved st = [].
Proof.
  destruct st as [b l]. unfold at_end. cbn [snd].
  destruct l as [|c [|c' r]]; intros H; try discriminate.
  - reflexivity.
  - apply Ascii.eqb_eq in H. subst c. reflexivity.
Qed.

Lemma lookahead_keeps (states : list state) :
  Forall (fun st => at_end st = true) states ->
  flat_map (ends (NotAhead reserved)) states = states.
Proof.
  induction 1 as [|st rest Hst _ IH]; [reflexivity|].
  change (flat_map (ends (NotAhead reserved)) (st :: rest))
    with (ends (NotAhead reserved) st ++ flat_map (ends (NotAhead reserved)) rest)%list.
  rewrite IH. cbn [ends]. rewrite (reserved_not_at_end st Hst). reflexivity.
Qed.

(** The lookahead of the attribute name stands after the end anchor,
    where it always succeeds: the pattern matches what the pattern of
    ids matches. *)
Lemma attribute_name_match s :
  re_match attribute_name s = re_match fiware_safe s.
Proof.
  unfold re_match, attribute_name. cbn [ends].
  fold fiware_safe. unfold fiware_safe. rewrite ends_anchored.
  rewrite lookahead_keeps by apply all_at_end. reflexivity.
Qed.

End PatternFacts.

(** ** Names, ids and type tags *)

Section Charset.

Import Regex Patterns.

(** What [constr] accepts under the pattern of ids and types: between 1
    and 256 characters, all of them ASCII and none of [?], [&], [#], [/]. *)
Lemma constr_fiware_safe s :
  constr fiware_safe s =
  if Z.of_nat (String.length s) <? 1 then inr AnyStrMinLengthError
  else if 256 <? Z.of_nat (String.length s) then inr AnyStrMaxLengthError
  else if forallb (allowed "?&#/") (PyStr.to_list s) then inl s
  else inr StrRegexError.
Proof. unfold constr. now rewrite fiware_safe_match. Qed.

(** The attribute name is checked like an id: the reserved words pass. *)
Lemma constr_attribute_name s :
  constr attribute_name s = constr fiware_safe s.
Proof. unfold constr. now rewrite attribute_name_match. Qed.

(** Every character the patterns exclude is rejected. *)
Lemma excluded_rejected s c :
  In c (PyStr.to_list s) -> one_of "?&#/" c = true ->
  forall r, constr fiware_safe s <> inl r.
Proof.
  intros Hin Hex r. rewrite constr_fiware_safe.
  assert (Hall : forallb (allowed "?&#/") (PyStr.to_list s) = false).
  { apply not_true_is_false. intros Hall.
    rewrite forallb_forall in Hall. specialize (Hall c Hin).
    unfold allowed in Hall. rewrite Hex in Hall. discriminate. }
  rewrite Hall. repeat destruct (_ <? _); discriminate.
Qed.

End Charset.

(** C5: a [NamedContextAttribute] named after a reserved word is
    constructed, where the claim has the construction fail: the names
    [id], [type], [geo:distance] and [*] all pass the name check, and
    [NamedContextAttribute(name="id", type="Text", value="x")] yields an
    attribute. *)
Theorem reserved_names_accepted :
  Forall (fun n => constr Patterns.attribute_name n = inl n)
    ["id"; "type"; "geo:distance"; "*"]
  /\ NamedContextAttribute.init "id" [("type", text "Text"); ("value", text "x")] =
     Ok (NamedContextAttribute.Build "id"
           (ContextAttribute.Build TEXT (Py.SStr "x")
              (ContextAttribute.Raw (Py.VDict [])))).
Proof.
  split; [|vm_compute; reflexivity].
  repeat constructor; rewrite constr_attribute_name; vm_compute; reflexivity.
Qed.

(** C6: strings with whitespace or a control character pass the check of
    ids and types, where the claim has them rejected: an entity with id
    [My Id] is constructed, a tab and a bell character are accepted, and
    the pattern that ids share with the attribute type lets the star
    through, which the pattern of the metadata type does not. *)
Theorem whitespace_and_control_accepted :
  ContextEntity.init [] "My Id" "Room" [] = Ok (ContextEntity.Build "My Id" "Room" [])
  /\ constr Patterns.fiware_safe (String "009" "x") = inl (String "009" "x")
  /\ constr Patterns.fiware_safe (String "007" "x") = inl (String "007" "x")
  /\ constr Patterns.fiware_safe "a*b" = inl "a*b"
  /\ constr Patterns.fiware_safe_star "a*b" = inr StrRegexError.
Proof. repeat split; vm_compute; reflexivity. Qed.

(** ** The value validator *)

Section ValueCoercion.

Import Py Patterns ContextAttribute.

(** The value of every member of [DataTypes] passes the check of the
    field [type]. *)
Lemma constr_tag_value (t : DataTypes) :
  constr fiware_safe (tag_value t) = inl (tag_value t).
Proof. destruct t; vm_compute; reflexivity. Qed.

(** A string that [int] reads, [float] reads too: the union never gets
    as far as its member [int] with a string. *)
Lemma int_string_is_float (s : string) (n : Z) :
  PyInt.of_string s = Some n -> PyFloat.of_string s <> None.
Proof.
  unfold PyInt.of_string, PyFloat.of_string.
  destruct (drop_underscores None (PyStr.strip (PyStr.to_list s))) as [l|];
    [|discriminate].
  cbn [mbind option_bind].
  destruct (split_sign l) as [neg r].
  destruct (parse_special neg r); [discriminate|].
  unfold parse_number.
  destruct (take_digits r) as [ds rest].
  destruct ds as [|d ds]; [discriminate|].
  destruct rest; [|discriminate].
  intros _. cbn. discriminate.
Qed.

(** What leaves the union is a float, a boolean read from one of the
    words of [bool], or a string that [float] does not read. *)
Lemma union_coerce_inl (v u : scalar) :
  Pydantic.union_coerce v = inl u ->
  (exists x, u = SFloat x)
  \/ (exists b, u = SBool b)
  \/ (exists s, u = SStr s /\ PyFloat.of_string s = None).
Proof.
  destruct v as [x|n|b|s]; cbn.
  - intros [= <-]. left. eauto.
  - destruct (PyFloat.of_int n); [|discriminate]. intros [= <-]. left. eauto.
  - intros [= <-]. left. eauto.
  - destruct (PyFloat.of_string s) eqn:Hf.
    + intros [= <-]. left. eauto.
    + destruct (PyInt.of_string s) eqn:Hi.
      * apply int_string_is_float in Hi. contradiction.
      * destruct (Pydantic.bool_word s); intros [= <-]; right; eauto.
Qed.

(** The union raises nothing but [OverflowError]. *)
Lemma union_coerce_inr (v : scalar) (e : exc) :
  Pydantic.union_coerce v = inr e -> e = OverflowError.
Proof.
  destruct v as [x|n|b|w]; cbn; try discriminate.
  - destruct (PyFloat.of_int n); congruence.
  - destruct (PyFloat.of_string w); [discriminate|].
    destruct (PyInt.of_string w); [discriminate|].
    destruct (Pydantic.bool_word w); discriminate.
Qed.

(** Of what leaves the union, [float] raises nothing but [ValueError]. *)
Lemma float_of_coerced (v u : scalar) (e : exc) :
  Pydantic.union_coerce v = inl u -> float_ u = inr e -> e = ValueError.
Proof.
  intros Hu He.
  destruct (union_coerce_inl _ _ Hu) as [[x ->]|[[b ->]|[s [-> Hs]]]];
    cbn in He; try discriminate.
  rewrite Hs in He. congruence.
Qed.

(** The validator in terms of the three conversions, for a type that is
    a string. *)
Lemma validate_value_type_plain (s : string) (u : scalar) :
  validate_value_type u (Some (Plain s)) =
  if String.eqb s "Boolean" then inl (SBool (bool_ u))
  else if String.eqb s "Number" then
    match float_ u with
    | inl x => inl (SFloat x)
    | inr e => inr e
    end
  else inl (SStr (str_ u)).
Proof. reflexivity. Qed.

(** The constructor on keyword arguments that hold a string as type, a
    scalar as value and a metadata that passes: the value goes through
    the union, then through the validator. *)
Lemma init_fields (kw : Py.dict Py.value) (s : string) (v : scalar)
    (m : metadata_t) :
  get "type" kw = Some (text s) ->
  get "value" kw = Some (VScalar v) ->
  validate_metadata (get "metadata" kw) = inl m ->
  constr fiware_safe s = inl s ->
  init kw =
  match Pydantic.union_coerce v with
  | inr e => Raise (Uncaught e)
  | inl u =>
      match validate_value_type u (Some (Plain s)) with
      | inl r => Ok (Build (Plain s) r m)
      | inr e =>
          match caught e with
          | Some fe => Raise (ValidationError "ContextAttribute" [("value", fe)])
          | None => Raise (Uncaught e)
          end
      end
  end.
Proof.
  intros Ht Hv Hm Hs.
  unfold init, validate_fields, validate_type, validate_value.
  rewrite Ht, Hv, Hm. unfold text, constrained_str.
  cbn [Pydantic.str_validator str_ as_scalar]. rewrite Hs.
  cbn [validated].
  destruct (Pydantic.union_coerce v) as [u|e]; [|reflexivity].
  destruct (validate_value_type u _) as [r|e]; [reflexivity|].
  destruct (caught e); reflexivity.
Qed.

(** The same without the type: the default is the member [TEXT], and the
    value is turned into a string. *)
Lemma init_default_type (kw : Py.dict Py.value) (v : scalar) (m : metadata_t) :
  get "type" kw = None ->
  get "value" kw = Some (VScalar v) ->
  validate_metadata (get "metadata" kw) = inl m ->
  init kw =
  match Pydantic.union_coerce v with
  | inr e => Raise (Uncaught e)
  | inl u => Ok (Build (Member TEXT) (SStr (str_ u)) m)
  end.
Proof.
  intros Ht Hv Hm.
  unfold init, validate_fields, validate_type, validate_value.
  rewrite Ht, Hv, Hm. cbn [as_scalar validated].
  destruct (Pydantic.union_coerce v) as [u|e]; reflexivity.
Qed.

(** C3, the counterexample: under [Text] the integer 20 is stored as the
    string [20.0], where [str(20)] is [20]; under [Boolean] the string
    [false] is stored as [False], where [bool] of it is [True]; under
    [Text] the boolean [True] is stored as [1.0]; and an integer too large
    for a float ends the construction with [OverflowError], which is none
    of the three branches. *)
Lemma union_precedes_validator :
  init [("type", text "Text"); ("value", int 20)] =
    Ok (Build (Plain "Text") (SStr "20.0") (Raw (VDict [])))
  /\ str_ (SInt 20) = "20"
  /\ init [("type", text "Boolean"); ("value", text "false")] =
       Ok (Build (Plain "Boolean") (SBool false) (Raw (VDict [])))
  /\ bool_ (SStr "false") = true
  /\ init [("type", text "Text"); ("value", VScalar (SBool true))] =
       Ok (Build (Plain "Text") (SStr "1.0") (Raw (VDict [])))
  /\ str_ (SBool true) = "True"
  /\ init [("type", text "Text"); ("value", int (10 ^ 400))] =
       Raise (Uncaught OverflowError).
Proof. repeat split; vm_compute; reflexivity. Qed.

(** C3, amended: for every type [s] that passes the check of the field
    and every scalar [v], the value first goes through the union of the
    field, which raises [OverflowError] out of the constructor for an
    integer too large for a float and otherwise gives a scalar [u]. The
    validator then has three branches on [s]: for [Boolean] the stored
    value is [bool(u)]; for [Number] it is [float(u)], and the
    construction fails with a [ValueError] on the field [value] when [u]
    has no numeric form; for every other type it is [str(u)]. *)
Theorem value_through_union_and_validator (s : string) (v : scalar) :
  constr fiware_safe s = inl s ->
  init [("type", text s); ("value", VScalar v)] =
  match Pydantic.union_coerce v with
  | inr _ => Raise (Uncaught OverflowError)
  | inl u =>
      if String.eqb s "Boolean"
      then Ok (Build (Plain s) (SBool (bool_ u)) (Raw (VDict [])))
      else if String.eqb s "Number" then
        match float_ u with
        | inl x => Ok (Build (Plain s) (SFloat x) (Raw (VDict [])))
        | inr _ =>
            Raise (ValidationError "ContextAttribute" [("value", Raised ValueError)])
        end
      else Ok (Build (Plain s) (SStr (str_ u)) (Raw (VDict [])))
  end.
Proof.
  intros Hs.
  rewrite (init_fields _ s v (Raw (VDict []))); try reflexivity; [|exact Hs].
  destruct (Pydantic.union_coerce v) as [u|e] eqn:Hu.
  - rewrite validate_value_type_plain.
    destruct (String.eqb s "Boolean"); [reflexivity|].
    destruct (String.eqb s "Number"); [|reflexivity].
    destruct (float_ u) as [x|e] eqn:He; [reflexivity|].
    rewrite (float_of_coerced _ _ _ Hu He). reflexivity.
  - rewrite (union_coerce_inr _ _ Hu). reflexivity.
Qed.

Lemma value_through_union_and_validator_witness :
  init [("type", text "Number"); ("value", text "abc")] =
  Raise (ValidationError "ContextAttribute" [("value", Raised ValueError)]).
Proof.
  exact (value_through_union_and_validator "Number" (SStr "abc") eq_refl).
Defined.

(** What the validator returns, it returns unchanged when asked again. *)
Lemma coerced_value_fixed (x : type_tag) (v r : scalar) :
  validate_value_type v (Some x) = inl r ->
  validate_value_type r (Some x) = inl r.
Proof.
  unfold validate_value_type.
  destruct (tag_eq x BOOLEAN); [intros [= <-]; reflexivity|].
  destruct (tag_eq x NUMBER); [|intros [= <-]; reflexivity].
  destruct (float_ v) as [y|e]; [|discriminate].
  intros [= <-]. reflexivity.
Qed.

(** C9: coercion is idempotent. Whenever the validator returns [r] for a
    value under a tag, it returns [r] again for [r] under that tag. *)
Theorem validate_value_type_idempotent (t : DataTypes) (v r : scalar) :
  validate_value_type v (Some (t : type_tag)) = inl r ->
  validate_value_type r (Some (t : type_tag)) = inl r.
Proof.
  intros H. destruct t.
  all: try (cbn in H; injection H as <-; reflexivity).
  - (* number: [float] of a float is that float *)
    cbn in H. destruct (float_ v) as [x|e]; [|discriminate].
    injection H as <-. reflexivity.
Qed.

Lemma validate_value_type_idempotent_witness :
  validate_value_type (SInt 20) (Some (NUMBER : type_tag)) =
    inl (SFloat (S754_finite false 5629499534213120 (-48)))
  /\ validate_value_type (SFloat (S754_finite false 5629499534213120 (-48)))
       (Some (NUMBER : type_tag)) =
     inl (SFloat (S754_finite false 5629499534213120 (-48))).
Proof.
  split; [vm_compute; reflexivity|].
  apply (validate_value_type_idempotent NUMBER (SInt 20)).
  vm_compute. reflexivity.
Defined.

End ValueCoercion.

(** ** The metadata validator *)

Section Metadata.

Import Py ContextAttribute.

(** A dictionary that is not empty leaves the validator as [None]. *)
Lemma validate_metadata_type_nonempty (item : string * Py.value)
    (rest : Py.dict Py.value) :
  validate_metadata_type (VDict (item :: rest)) = inl (Raw VNone).
Proof. reflexivity. Qed.

Lemma validate_metadata_type_empty :
  validate_metadata_type (VDict []) = inl (Raw (VDict [])).
Proof. reflexivity. Qed.

(** The validator never builds a [ContextMetadata] from a dictionary. *)
Lemma validate_metadata_type_no_model (d : Py.dict Py.value)
    (m : ContextMetadata.t) :
  validate_metadata_type (VDict d) <> inl (Model m).
Proof. destruct d; discriminate. Qed.

(** C7: an attribute given a metadata mapping that is not empty is
    constructed with [None] as its metadata, whatever the mapping holds:
    nothing is parsed into a [ContextMetadata], and a mapping that does
    not have the shape of one (here a type tag with a slash) does not
    make the construction fail, where the claim has it parsed and
    checked. The value is what the union of the field and the validator
    make of it. The empty mapping is stored as it is. *)
Theorem nonempty_metadata_dropped :
  (forall (t : DataTypes) (v : scalar) (item : string * Py.value)
          (rest : Py.dict Py.value),
     init [("type", text (tag_value t)); ("value", VScalar v);
           ("metadata", VDict (item :: rest))] =
     match Pydantic.union_coerce v with
     | inr e => Raise (Uncaught e)
     | inl u =>
         match validate_value_type u (Some (t : type_tag)) with
         | inl r => Ok (Build t r (Raw VNone))
         | inr e =>
             match caught e with
             | Some fe => Raise (ValidationError "ContextAttribute" [("value", fe)])
             | None => Raise (Uncaught e)
             end
         end
     end)
  /\ init [("type", text "Number"); ("value", int 20);
           ("metadata", VDict [("type", text "Text"); ("value", text "x")])] =
    Ok (Build NUMBER (SFloat twenty) (Raw VNone))
  /\ init [("type", text "Number"); ("value", int 20);
           ("metadata", VDict [("type", text "no/such")])] =
    Ok (Build NUMBER (SFloat twenty) (Raw VNone))
  /\ init [("type", text "Number"); ("value", int 20); ("metadata", VDict [])] =
    Ok (Build NUMBER (SFloat twenty) (Raw (VDict [])))
  /\ is_ok (ContextMetadata.init [("type", text "no/such")]) = false.
Proof.
  split; [|repeat split; vm_compute; reflexivity].
  intros t v item rest.
  apply init_fields; try reflexivity.
  apply constr_tag_value.
Qed.

End Metadata.
(** ** Dictionaries *)

Section Dictionaries.

Context {V : Type}.



Lemma mem_In (k : string) (l : list string) :
  Py.mem k l = true <-> In k l.
Proof.
  unfold Py.mem. rewrite existsb_exists. split.
  - intros (x & Hx & E). apply String.eqb_eq in E. now subst.
  - intros H. exists k. split; [assumption | apply String.eqb_refl].
Qed.

Lemma get_None_not_key (k : string) (d : Py.dict V) :
  Py.get k d = None <-> ~ In k (Py.keys d).
Proof.
  induction d as [|[k' v'] r IH]; cbn; [tauto|].
  destruct (String.eqb k k') eqn:E.
  - apply String.eqb_eq in E. subst. split; [discriminate | tauto].
  - apply String.eqb_neq in E. rewrite IH. intuition congruence.
Qed.

Lemma get_In (k : string) (v : V) (d : Py.dict V) :
  List.NoDup (Py.keys d) -> In (k, v) d -> Py.get k d = Some v.
Proof.
  induction d as [|[k' v'] r IH]; cbn; [tauto|].
  intros Hnd [Heq|Hin].
  - injection Heq as -> ->. now rewrite String.eqb_refl.
  - inversion Hnd as [|? ? Hfresh Hnd']; subst.
    destruct (String.eqb k k') eqn:E; [|now apply IH].
    apply String.eqb_eq in E. subst k'. exfalso. apply Hfresh.
    unfold Py.keys. apply in_map_iff. now exists (k, v).
Qed.

Lemma arrange_cons (k : string) (order : list string) (d : Py.dict V) :
  Py.arrange (k :: order) d =
  match Py.get k d with
  | Some v => (k, v) :: Py.arrange order d
  | None => Py.arrange order d
  end.
Proof. unfold Py.arrange. cbn. destruct (Py.get k d); reflexivity. Qed.

(** Nothing is taken from an empty dictionary. *)
Lemma arrange_nil (order : list string) : Py.arrange order ([] : Py.dict V) = [].
Proof. induction order as [|k r IH]; [reflexivity|]. now rewrite arrange_cons. Qed.

(** Looking up a name in a rearranged dictionary. *)
Lemma get_arrange (order : list string) (d : Py.dict V) (k : string) :
  Py.get k (Py.arrange order d) = if Py.mem k order then Py.get k d else None.
Proof.
  induction order as [|k0 r IH]; [reflexivity|].
  rewrite arrange_cons. cbn [Py.mem existsb]. fold (Py.mem k r).
  destruct (String.eqb k k0) eqn:E.
  - apply String.eqb_eq in E. subst k0. cbn [orb].
    destruct (Py.get k d) as [v|] eqn:Hg.
    + cbn. now rewrite String.eqb_refl.
    + rewrite IH. now destruct (Py.mem k r).
  - cbn [orb]. destruct (Py.get k0 d); [|exact IH].
    cbn. rewrite E. exact IH.
Qed.

(** The names of a rearranged dictionary are the order itself, when the
    order is made of names of the dictionary. *)
Lemma keys_arrange (order : list string) (d : Py.dict V) :
  (forall k, In k order -> In k (Py.keys d)) ->
  Py.keys (Py.arrange order d) = order.
Proof.
  induction order as [|k0 r IH]; intros H; [reflexivity|].
  rewrite arrange_cons.
  destruct (Py.get k0 d) as [v|] eqn:Hg.
  - cbn. f_equal. apply IH. intros k Hk. apply H. now right.
  - apply get_None_not_key in Hg. exfalso. apply Hg, H. now left.
Qed.

(** A dictionary of one item has one order. *)
Lemma arrange_single (k : string) (v : V) :
  Py.arrange [k] [(k, v)] = [(k, v)].
Proof. rewrite arrange_cons. cbn. now rewrite String.eqb_refl. Qed.

End Dictionaries.

(** ** Construction of an entity *)

Section Construction.

Import Py.

Lemma keyword_data_not_field data key attr :
  keyword_data data -> In (key, attr) data -> mem key ContextEntity.fields = false.
Proof.
  unfold keyword_data. intros Hkw Hin.
  apply not_true_is_false. intros Hf.
  assert (Hex : existsb (fun k => mem k ContextEntity.parameters) (keys data) = true).
  { apply existsb_exists. exists key. split.
    - unfold keys. apply in_map_iff. now exists (key, attr).
    - apply mem_In. apply mem_In in Hf. cbn in *. tauto. }
  congruence.
Qed.

Lemma keyword_data_tail item data :
  keyword_data (item :: data) -> keyword_data data.
Proof.
  unfold keyword_data. cbn. intros H. apply orb_false_iff in H. tauto.
Qed.

(** The comprehension raises the error of the first payload that does
    not parse. *)
Lemma _validate_properties_raises data :
  keyword_data data ->
  (exists key attr err, In (key, attr) data /\
     ContextAttribute.parse_obj attr = Raise err) ->
  exists key attr err, In (key, attr) data /\
    ContextAttribute.parse_obj attr = Raise err /\
    ContextEntity._validate_properties data = Raise err.
Proof.
  induction data as [|[k a] rest IH]; intros Hkw (key & attr & err & Hin & Hbad).
  - destruct Hin.
  - cbn [ContextEntity._validate_properties].
    rewrite (keyword_data_not_field _ k a Hkw) by (left; reflexivity).
    destruct (ContextAttribute.parse_obj a) as [ok|e] eqn:Hp.
    + destruct Hin as [Heq|Hin]; [injection Heq as -> ->; congruence|].
      destruct (IH (keyword_data_tail _ _ Hkw)) as (k' & a' & e' & Hin' & Hp' & Hv).
      { now exists key, attr, err. }
      exists k', a', e'. split; [right; assumption|]. split; [assumption|].
      cbn [bind]. rewrite Hv. reflexivity.
    + exists k, a, e. split; [left; reflexivity|]. split; [assumption | reflexivity].
Qed.

(** When one of the raw attributes is refused by [parse_obj], the
    construction of the entity raises what [parse_obj] raised for such
    an attribute, and no entity is returned. *)
Lemma refused_attribute_aborts (order : list string) (id_ type_ : string)
    (data : Py.dict Py.value) :
  keyword_data data ->
  (exists key attr err, In (key, attr) data /\
     ContextAttribute.parse_obj attr = Raise err) ->
  exists key attr err, In (key, attr) data /\
    ContextAttribute.parse_obj attr = Raise err /\
    ContextEntity.init order id_ type_ data = Raise err.
Proof.
  intros Hkw Hbad.
  destruct (_validate_properties_raises data Hkw Hbad) as (k & a & e & Hin & Hp & Hv).
  exists k, a, e. split; [assumption|]. split; [assumption|].
  unfold ContextEntity.init. unfold keyword_data in Hkw. rewrite Hkw, Hv. reflexivity.
Qed.

(** An attribute with a value that is no number under [Number] ends the
    construction of the entity with the error of that attribute. *)
Example refused_attribute_sample :
  ContextEntity.init ["temperature"; "pressure"] "Bcn-Welt" "Room" sample_malformed =
  Raise (ValidationError "ContextAttribute" [("value", Raised ValueError)]).
Proof. vm_compute. reflexivity. Qed.

(** C2: the flat entity whose attribute [temperature] carries the
    metadata [{'type': 'no/such'}] is constructed, where the claim has
    the construction fail: that metadata is malformed, [ContextMetadata]
    refuses it, but the attribute is accepted with [None] as metadata
    and so is the entity. *)
Theorem malformed_metadata_accepted :
  is_ok (ContextMetadata.init [("type", text "no/such")]) = false
  /\ ContextAttribute.parse_obj
       (VDict [("type", text "Number"); ("value", int 20);
               ("metadata", VDict [("type", text "no/such")])]) =
     Ok (ContextAttribute.Build NUMBER (SFloat twenty) (ContextAttribute.Raw VNone))
  /\ ContextEntity.init (keys with_bad_metadata) "Bcn-Welt" "Room" with_bad_metadata =
     Ok temperature_entity.
Proof. repeat split; vm_compute; reflexivity. Qed.

End Construction.
(** ** Attributes built again from their dictionary *)

Section Rebuild.

Import Py Patterns ContextAttribute.

Lemma constr_inl (p : Regex.regex) (s s' : string) : constr p s = inl s' -> s' = s.
Proof.
  unfold constr.
  repeat match goal with |- context [if ?c then _ else _] => destruct c end;
    congruence.
Qed.

Lemma tag_eq_plain (x : type_tag) (t : DataTypes) :
  tag_eq (Plain (tag_str x)) t = tag_eq x t.
Proof. reflexivity. Qed.

Lemma validate_value_type_plain_tag (x : type_tag) (u : scalar) :
  validate_value_type u (Some (Plain (tag_str x))) = validate_value_type u (Some x).
Proof. reflexivity. Qed.

(** The type of a stored attribute, checked again: a member gives its
    value, and what passes is a plain string. *)
Lemma validate_type_dump (x : type_tag) :
  validate_type (Some (dump_type x)) =
  match constr fiware_safe (tag_str x) with
  | inl s => inl (Plain s)
  | inr e => inr e
  end.
Proof. destruct x; reflexivity. Qed.

(** The constructor on keyword arguments whose type and metadata pass
    and whose value is a scalar. *)
Lemma init_validated (kw : Py.dict Py.value) (x : type_tag) (v : scalar)
    (m : metadata_t) :
  validate_type (get "type" kw) = inl x ->
  get "value" kw = Some (VScalar v) ->
  validate_metadata (get "metadata" kw) = inl m ->
  init kw =
  match Pydantic.union_coerce v with
  | inr e => Raise (Uncaught e)
  | inl u =>
      match validate_value_type u (Some x) with
      | inl r => Ok (Build x r m)
      | inr e =>
          match caught e with
          | Some fe => Raise (ValidationError "ContextAttribute" [("value", fe)])
          | None => Raise (Uncaught e)
          end
      end
  end.
Proof.
  intros Ht Hv Hm.
  unfold init, validate_fields, validate_value.
  rewrite Ht, Hv, Hm. cbn [as_scalar validated].
  destruct (Pydantic.union_coerce v) as [u|e]; [|reflexivity].
  destruct (validate_value_type u _) as [r|e]; [reflexivity|].
  destruct (caught e); reflexivity.
Qed.

(** A metadata that is refused leaves no attribute. *)
Lemma init_metadata_refused (kw : Py.dict Py.value) (e : field_error) :
  validate_metadata (get "metadata" kw) = inr e -> is_ok (init kw) = false.
Proof.
  intros Hm. unfold init, validate_fields. rewrite Hm.
  destruct (validate_type _) as [x|e1];
    destruct (validate_value _ _) as [[r|e2]|err]; reflexivity.
Qed.

(** An attribute whose metadata is [None] cannot be rebuilt from its
    dictionary. *)
Lemma init_dict_none_metadata (x : type_tag) (v : scalar) :
  is_ok (init (dict (Build x v (Raw VNone)))) = false.
Proof. apply (init_metadata_refused _ (Raised TypeError)). reflexivity. Qed.

(** What the constructor returns is determined by three lookups. *)
Lemma init_ok_inv (kw : Py.dict Py.value) (a : t) :
  init kw = Ok a ->
  exists raw v u,
    validate_type (get "type" kw) = inl (type a)
    /\ get "value" kw = Some raw /\ as_scalar raw = Some v
    /\ Pydantic.union_coerce v = inl u
    /\ validate_value_type u (Some (type a)) = inl (value a)
    /\ validate_metadata (get "metadata" kw) = inl (metadata a).
Proof.
  unfold init, validate_fields, validate_value.
  destruct (validate_type (get "type" kw)) as [x|e1] eqn:Ht; cbn [validated].
  - destruct (get "value" kw) as [raw|] eqn:Hval.
    2:{ cbn [bind]. destruct (validate_metadata _); discriminate. }
    destruct raw as [|v|tg|d] eqn:Hraw;
      try (cbn [as_scalar bind]; destruct (validate_metadata _); discriminate).
    + cbn [as_scalar].
      destruct (Pydantic.union_coerce v) as [u|e] eqn:Hu; [|discriminate].
      destruct (validate_value_type u (Some x)) as [r|e2] eqn:Hv.
      * cbn [bind].
        destruct (validate_metadata (get "metadata" kw)) as [m|e3] eqn:Hm;
          [|discriminate].
        intros H. injection H as <-. exists (VScalar v), v, u. cbn. auto 10.
      * destruct (caught e2); cbn [bind]; [|discriminate].
        destruct (validate_metadata _); discriminate.
    + cbn [as_scalar].
      destruct (Pydantic.union_coerce _) as [u|e] eqn:Hu; [|discriminate].
      destruct (validate_value_type u (Some x)) as [r|e2] eqn:Hv.
      * cbn [bind].
        destruct (validate_metadata (get "metadata" kw)) as [m|e3] eqn:Hm;
          [|discriminate].
        intros H. injection H as <-.
        exists (VEnum tg), (SStr (tag_value tg)), u. cbn. auto 10.
      * destruct (caught e2); cbn [bind]; [|discriminate].
        destruct (validate_metadata _); discriminate.
  - destruct (get "value" kw) as [[|v|tg|d]|]; cbn [as_scalar bind];
      try (destruct (validate_metadata _); discriminate).
    + destruct (Pydantic.union_coerce v); discriminate.
    + destruct (Pydantic.union_coerce _); discriminate.
Qed.

(** The type of a constructed attribute is the default member [TEXT] or
    a plain string that passes the check of the field. *)
Lemma stored_type (kw : Py.dict Py.value) (a : t) :
  init kw = Ok a ->
  type a = Member TEXT
  \/ exists s, type a = Plain s /\ constr fiware_safe s = inl s.
Proof.
  intros H. destruct (init_ok_inv kw a H) as (raw & v & u & Ht & _).
  unfold validate_type in Ht.
  destruct (get "type" kw) as [ty|]; [|left; congruence].
  destruct (constrained_str fiware_safe ty) as [s|e] eqn:Hc; [|discriminate].
  right. exists s. split; [congruence|].
  unfold constrained_str in Hc.
  destruct ty; try discriminate;
    destruct (Pydantic.str_validator _) as [s'|]; try discriminate;
    pose proof (constr_inl _ _ _ Hc); subst; exact Hc.
Qed.

Lemma stored_metadata (kw : Py.dict Py.value) (a : t) :
  init kw = Ok a ->
  metadata a = Raw (VDict []) \/ metadata a = Raw VNone.
Proof.
  intros H. destruct (init_ok_inv kw a H) as (raw & v & u & _ & _ & _ & _ & _ & Hm).
  unfold validate_metadata in Hm.
  destruct (get "metadata" kw) as [r|]; [|left; congruence].
  assert (Hd : forall d, run_metadata_validator (VDict d) = inl (metadata a) ->
                         metadata a = Raw (VDict []) \/ metadata a = Raw VNone).
  { intros [|x d] Hr; cbn in Hr; [left | right]; congruence. }
  destruct r as [|[x|n|b|s]|tg|d]; cbn in Hm; try discriminate.
  - destruct s; [|discriminate]. now apply (Hd []).
  - now apply (Hd d).
Qed.

(** The metadata that is validated to itself is the empty dictionary. *)
Lemma validate_metadata_dump (m : metadata_t) :
  validate_metadata (Some (dump_metadata m)) = inl m <-> m = Raw (VDict []).
Proof.
  split; [|intros ->; reflexivity].
  destruct m as [[|[x|n|b|s]|tg|[|it d]]|md]; cbn; try discriminate; try reflexivity.
  destruct s; discriminate.
Qed.

Lemma bool_of_bool (b : bool) : bool_ (SFloat (of_bool b)) = b.
Proof. destruct b; vm_compute; reflexivity. Qed.

(** A value is settled under a type exactly when the union and the
    validator give it back. *)
Lemma settled_value_spec (x : type_tag) (v : scalar) :
  settled_value x v = true <->
  exists u, Pydantic.union_coerce v = inl u
            /\ validate_value_type u (Some x) = inl v.
Proof.
  unfold settled_value, validate_value_type. split.
  - destruct v as [y|n|b|s].
    + intros H. apply andb_true_iff in H as [H1 H2].
      apply negb_true_iff in H1. exists (SFloat y). rewrite H1, H2.
      split; reflexivity.
    + discriminate.
    + intros H. exists (SFloat (of_bool b)). rewrite H.
      split; [reflexivity|]. now rewrite bool_of_bool.
    + intros H. apply andb_true_iff in H as [H H3].
      apply andb_true_iff in H as [H1 H2].
      apply negb_true_iff in H1, H2.
      destruct (Pydantic.union_coerce (SStr s)) as [u|e]; [|discriminate].
      apply String.eqb_eq in H3. exists u. rewrite H1, H2, H3.
      split; reflexivity.
  - intros (u & Hu & Hv).
    destruct (tag_eq x BOOLEAN) eqn:E1.
    { injection Hv as <-. reflexivity. }
    destruct (tag_eq x NUMBER) eqn:E2.
    { destruct (float_ u) as [y|e]; [|discriminate]. injection Hv as <-.
      reflexivity. }
    injection Hv as <-. cbn [negb andb]. rewrite Hu. apply String.eqb_refl.
Qed.

(** An attribute is rebuilt from its own dictionary, as itself up to the
    class of its type, exactly when it is settled. *)
Lemma rebuild_settled_iff (a : ContextAttribute.t) :
  rebuild a = Ok (replain a) <-> settled a = true.
Proof.
  destruct a as [x v m]. unfold rebuild, settled, replain.
  cbn [type value metadata]. split.
  - intros H. destruct (init_ok_inv _ _ H) as (raw & v' & u & Ht & Hr & Hs & Hu & Hv & Hm).
    cbn [type value metadata] in *.
    change (get "type" (dict (Build x v m))) with (Some (dump_type x)) in Ht.
    change (get "value" (dict (Build x v m))) with (Some (VScalar v)) in Hr.
    change (get "metadata" (dict (Build x v m))) with (Some (dump_metadata m)) in Hm.
    injection Hr as <-. cbn in Hs. injection Hs as <-.
    rewrite validate_type_dump in Ht.
    destruct (constr fiware_safe (tag_str x)); [|discriminate].
    apply validate_metadata_dump in Hm. subst m.
    rewrite validate_value_type_plain_tag in Hv.
    rewrite (proj2 (settled_value_spec x v)) by eauto. reflexivity.
  - intros H. apply andb_true_iff in H as [H Hm].
    apply andb_true_iff in H as [Ht Hv].
    destruct m as [[| | |[|]]|]; try discriminate.
    destruct (constr fiware_safe (tag_str x)) as [s|] eqn:Hc; [|discriminate].
    pose proof (constr_inl _ _ _ Hc). subst s.
    apply settled_value_spec in Hv as (u & Hu & Hv).
    rewrite (init_validated _ (Plain (tag_str x)) v (Raw (VDict []))).
    + rewrite Hu, validate_value_type_plain_tag, Hv. reflexivity.
    + change (get "type" (dict (Build x v (Raw (VDict []))))) with (Some (dump_type x)).
      rewrite validate_type_dump, Hc. reflexivity.
    + reflexivity.
    + reflexivity.
Qed.

(** X10: an attribute is rebuilt from its own dictionary, as itself up
    to the class of its type, exactly when it is settled: its type
    passes the check of the field, its value is of the class of its type
    (and, for a string, is [str] of what the union reads it as), and its
    metadata is the empty dictionary. An attribute of type [Number] with
    a float and the empty metadata is rebuilt, one with [None] as
    metadata is not. *)
Theorem attribute_dict_roundtrip :
  (forall a : ContextAttribute.t, rebuild a = Ok (replain a) <-> settled a = true)
  /\ rebuild (number 20) = Ok (number 20)
  /\ is_ok (rebuild (Build NUMBER (SFloat twenty) (Raw VNone))) = false.
Proof.
  split; [exact rebuild_settled_iff|].
  split; vm_compute; reflexivity.
Qed.

(** A constructed attribute of type [Boolean] or [Number] with the empty
    dictionary as metadata is settled. *)
Lemma init_settled (kw : Py.dict Py.value) (a : ContextAttribute.t) :
  init kw = Ok a ->
  metadata a = Raw (VDict []) ->
  tag_eq (type a) BOOLEAN || tag_eq (type a) NUMBER = true ->
  settled a = true.
Proof.
  intros H Hm Hx.
  destruct (init_ok_inv _ _ H) as (raw & v' & u & Ht & Hr & Hs & Hu & Hv & _).
  unfold settled. rewrite Hm.
  destruct (stored_type _ _ H) as [Hty|(s & Hty & Hc)].
  { rewrite Hty in Hx. discriminate. }
  rewrite Hty in *. cbn [tag_str]. rewrite Hc. cbn [andb].
  rewrite andb_true_r.
  unfold validate_value_type in Hv. unfold settled_value.
  destruct (tag_eq (Plain s) BOOLEAN); [injection Hv as <-; reflexivity|].
  cbn [orb] in Hx. rewrite Hx in *.
  destruct (float_ u); [|discriminate]. injection Hv as <-. reflexivity.
Qed.

End Rebuild.
(** ** The attributes of a constructed entity *)

Section Constructed.

Import Py.

Lemma get_Some_In {V : Type} (k : string) (v : V) (d : Py.dict V) :
  get k d = Some v -> In (k, v) d.
Proof.
  induction d as [|[k' v'] r IH]; cbn; [discriminate|].
  destruct (String.eqb k k') eqn:E.
  - apply String.eqb_eq in E. subst. intros [= ->]. now left.
  - intros H. right. now apply IH.
Qed.

Lemma arrange_In {V : Type} (order : list string) (d : Py.dict V) (k : string) (v : V) :
  In (k, v) (arrange order d) -> In (k, v) d.
Proof.
  induction order as [|k0 r IH]; [intros []|].
  rewrite arrange_cons. destruct (get k0 d) as [v0|] eqn:Hg; [|exact IH].
  intros [[= <- <-]|H]; [now apply get_Some_In | now apply IH].
Qed.

Lemma _validate_properties_items (data : Py.dict Py.value) :
  forall attrs, keyword_data data ->
  ContextEntity._validate_properties data = Ok attrs ->
  Forall2 (fun p q => fst p = fst q
                      /\ ContextAttribute.parse_obj (snd p) = Ok (snd q))
    data attrs.
Proof.
  induction data as [|[k attr] rest IH]; intros attrs Hkw H.
  - cbn in H. injection H as <-. constructor.
  - cbn [ContextEntity._validate_properties] in H.
    rewrite (keyword_data_not_field _ k attr Hkw (or_introl eq_refl)) in H.
    destruct (ContextAttribute.parse_obj attr) as [a|e] eqn:Hp; [|discriminate].
    cbn [bind] in H.
    destruct (ContextEntity._validate_properties rest) as [r|e] eqn:Hr; [|discriminate].
    cbn [bind] in H. injection H as <-.
    constructor; [split; [reflexivity | exact Hp]|].
    apply IH; [eapply keyword_data_tail, Hkw | reflexivity].
Qed.

Lemma items_keys (data : Py.dict Py.value) (attrs : Py.dict ContextAttribute.t) :
  Forall2 (fun p q => fst p = fst q
                      /\ ContextAttribute.parse_obj (snd p) = Ok (snd q))
    data attrs ->
  keys attrs = keys data.
Proof.
  induction 1 as [|[k attr] [k' a] data attrs [Hk _] _ IH]; [reflexivity|].
  cbn [fst] in Hk. subst k'. unfold keys in *. cbn [map fst]. now rewrite IH.
Qed.

Lemma items_get (data : Py.dict Py.value) (attrs : Py.dict ContextAttribute.t) :
  Forall2 (fun p q => fst p = fst q
                      /\ ContextAttribute.parse_obj (snd p) = Ok (snd q))
    data attrs ->
  forall k,
  match get k data with
  | Some attr => exists a, ContextAttribute.parse_obj attr = Ok a
                           /\ get k attrs = Some a
  | None => get k attrs = None
  end.
Proof.
  induction 1 as [|[k0 attr] [k' a] data attrs [Hk Hp] _ IH]; intros k;
    [reflexivity|].
  cbn in Hk, Hp. subst k'. cbn [get].
  destruct (String.eqb k k0); [eauto | apply IH].
Qed.

Lemma items_stored (data : Py.dict Py.value) (attrs : Py.dict ContextAttribute.t) :
  Forall2 (fun p q => fst p = fst q
                      /\ ContextAttribute.parse_obj (snd p) = Ok (snd q))
    data attrs ->
  Forall (fun q => exists kw, ContextAttribute.init kw = Ok (snd q)) attrs.
Proof.
  induction 1 as [|[k0 attr] [k' a] data attrs [_ Hp] _ IH]; constructor;
    [|exact IH].
  cbn in Hp |- *. unfold ContextAttribute.parse_obj in Hp.
  destruct (dict_ attr) as [kw|]; [eauto | discriminate].
Qed.

(** What a successful construction says about its arguments and its
    result. *)
Lemma init_inv (order : list string) (id_ type_ : string)
    (data : Py.dict Py.value) (e : ContextEntity.t) :
  ContextEntity.init order id_ type_ data = Ok e ->
  exists attrs,
    keyword_data data
    /\ ContextEntity._validate_properties data = Ok attrs
    /\ valid_identity id_ type_
    /\ e = ContextEntity.Build id_ type_ (arrange order attrs).
Proof.
  unfold ContextEntity.init, keyword_data, valid_identity.
  destruct (existsb _ (keys data)) eqn:Hkw; [discriminate|].
  destruct (ContextEntity._validate_properties data) as [attrs|err] eqn:Hv;
    [|discriminate].
  cbn [bind]. destruct (ContextEntity.validate_identity id_ type_); [|discriminate].
  intros [= <-]. exists attrs. auto.
Qed.

Lemma keyword_data_extra (data : Py.dict Py.value) (k : string) :
  keyword_data data -> In k (keys data) -> mem k ContextEntity.fields = false.
Proof.
  intros Hkw Hin. unfold keys in Hin. apply in_map_iff in Hin as ([k' attr] & <- & Hin).
  eapply keyword_data_not_field; eauto.
Qed.

(** The attributes of a constructed entity are built by the constructor
    of [ContextAttribute], and none is stored under the name of a
    declared field. *)
Lemma constructed_attributes_stored (order : list string) (id_ type_ : string)
    (data : Py.dict Py.value) (e : ContextEntity.t) :
  ContextEntity.init order id_ type_ data = Ok e ->
  extra_names (ContextEntity.attributes e)
  /\ Forall (fun q => exists kw, ContextAttribute.init kw = Ok (snd q))
       (ContextEntity.attributes e).
Proof.
  intros H. destruct (init_inv _ _ _ _ _ H) as (attrs & Hkw & Hv & _ & ->).
  cbn [ContextEntity.attributes].
  pose proof (_validate_properties_items _ _ Hkw Hv) as Hitems.
  pose proof (items_keys _ _ Hitems) as Hkeys.
  pose proof (items_stored _ _ Hitems) as Hst.
  rewrite List.Forall_forall in Hst.
  split; apply List.Forall_forall; intros [k a] Hin; apply arrange_In in Hin.
  - cbn. apply (keyword_data_extra data); [assumption|].
    rewrite <- Hkeys. unfold keys. apply in_map_iff. now exists (k, a).
  - now apply Hst.
Qed.

Lemma stored_no_member_relationship (attrs : Py.dict ContextAttribute.t) :
  Forall (fun q => exists kw, ContextAttribute.init kw = Ok (snd q)) attrs ->
  no_member_relationship attrs.
Proof.
  unfold no_member_relationship. apply List.Forall_impl. intros [k a] [kw H].
  cbn [snd] in *.
  destruct (stored_type _ _ H) as [Ht | (s & Ht & _)]; rewrite Ht; discriminate.
Qed.

End Constructed.

(** ** The views of an entity *)

Section Views.

Import Py.

Lemma dict_unfold (e : ContextEntity.t) :
  ContextEntity.dict e =
  ("id", text (ContextEntity.id e)) :: ("type", text (ContextEntity.type e))
  :: map dump (ContextEntity.attributes e).
Proof. reflexivity. Qed.

(** The test of the views on the dictionary of an attribute: only the
    member [RELATIONSHIP] itself passes. *)
Lemma type_is_relationship_dict (a : ContextAttribute.t) :
  ContextEntity.type_is_relationship (VDict (ContextAttribute.dict a)) =
  Ok match ContextAttribute.type a with
     | Member t => tag_is t RELATIONSHIP
     | Plain _ => false
     end.
Proof. destruct a as [[t|s] v m]; reflexivity. Qed.

Lemma not_relationship (a : ContextAttribute.t) :
  ContextAttribute.type a <> Member RELATIONSHIP ->
  ContextEntity.type_is_relationship (VDict (ContextAttribute.dict a)) = Ok false.
Proof.
  intros H. rewrite type_is_relationship_dict.
  destruct (ContextAttribute.type a) as [t|s]; [|reflexivity].
  destruct t; try reflexivity. contradiction.
Qed.

(** Nothing is selected for the relationships. *)
Lemma select_relationships {A : Type}
    (build : string -> Py.dict Py.value -> result A)
    (attrs : Py.dict ContextAttribute.t) :
  extra_names attrs -> no_member_relationship attrs ->
  ContextEntity.select true build (map dump attrs) = Ok [].
Proof.
  induction attrs as [|[k a] r IH]; intros Hn Hr; [reflexivity|].
  inversion Hn as [|? ? Hk Hn']; subst. inversion Hr as [|? ? Ha Hr']; subst.
  cbn [fst snd] in Hk, Ha.
  cbn [map dump ContextEntity.select]. rewrite Hk.
  rewrite (not_relationship a Ha). cbn [bind Bool.eqb]. now apply IH.
Qed.

(** Every attribute is selected for the properties. *)
Lemma select_properties {A : Type}
    (build : string -> Py.dict Py.value -> result A)
    (attrs : Py.dict ContextAttribute.t) :
  extra_names attrs -> no_member_relationship attrs ->
  ContextEntity.select false build (map dump attrs) = build_all build attrs.
Proof.
  induction attrs as [|[k a] r IH]; intros Hn Hr; [reflexivity|].
  inversion Hn as [|? ? Hk Hn']; subst. inversion Hr as [|? ? Ha Hr']; subst.
  cbn [fst snd] in Hk, Ha.
  cbn [map dump ContextEntity.select build_all]. rewrite Hk.
  rewrite (not_relationship a Ha). cbn [bind Bool.eqb ContextEntity.unpack].
  now rewrite IH.
Qed.

Lemma call_dict_ok (e : ContextEntity.t) :
  dict_callable (ContextEntity.attributes e) ->
  ContextEntity.call_dict e = Ok (ContextEntity.dict e).
Proof.
  intros H. unfold ContextEntity.call_dict.
  assert (Hex : existsb (fun k => mem k ContextEntity.dict_members)
                  (keys (ContextEntity.attributes e)) = false).
  { induction H as [|[k a] r [Hd Hu] _ IH]; [reflexivity|].
    cbn [keys map fst existsb] in *. fold (keys r). rewrite IH, orb_false_r.
    apply not_true_is_false. intros Hm. apply mem_In in Hm.
    cbn in Hm. destruct Hm as [<-|[<-|[<-|[<-|[]]]]]; discriminate. }
  now rewrite Hex.
Qed.

(** The views of an entity whose attributes were built by the
    constructor: the relationships are none, the properties are all the
    attributes, each built again. *)
Lemma views_relationships (e : ContextEntity.t) (format : string) :
  extra_names (ContextEntity.attributes e) ->
  no_member_relationship (ContextEntity.attributes e) ->
  dict_callable (ContextEntity.attributes e) ->
  ContextEntity.views true e format =
  Ok (if String.eqb format "dict" then ContextEntity.AsDict []
      else ContextEntity.AsList []).
Proof.
  intros Hn Hr Hc. unfold ContextEntity.views. rewrite (call_dict_ok e Hc).
  cbn [bind]. rewrite dict_unfold.
  destruct (String.eqb format "dict").
  - change (ContextEntity.select true ?b (?x :: ?y :: ?rest))
      with (ContextEntity.select true b rest).
    now rewrite select_relationships.
  - change (ContextEntity.select true ?b (?x :: ?y :: ?rest))
      with (ContextEntity.select true b rest).
    now rewrite select_relationships.
Qed.

Lemma views_properties_dict (e : ContextEntity.t) :
  extra_names (ContextEntity.attributes e) ->
  no_member_relationship (ContextEntity.attributes e) ->
  dict_callable (ContextEntity.attributes e) ->
  ContextEntity.views false e "dict" =
  let* d := build_all build_item (ContextEntity.attributes e) in
  Ok (ContextEntity.AsDict d).
Proof.
  intros Hn Hr Hc. unfold ContextEntity.views. rewrite (call_dict_ok e Hc).
  cbn [bind String.eqb Ascii.eqb Bool.eqb]. rewrite dict_unfold.
  change (ContextEntity.select false ?b (?x :: ?y :: ?rest))
    with (ContextEntity.select false b rest).
  now rewrite (select_properties _ _ Hn Hr).
Qed.

Lemma views_properties_list (e : ContextEntity.t) :
  extra_names (ContextEntity.attributes e) ->
  no_member_relationship (ContextEntity.attributes e) ->
  dict_callable (ContextEntity.attributes e) ->
  ContextEntity.views false e "list" =
  let* l := build_all NamedContextAttribute.init (ContextEntity.attributes e) in
  Ok (ContextEntity.AsList l).
Proof.
  intros Hn Hr Hc. unfold ContextEntity.views. rewrite (call_dict_ok e Hc).
  cbn [bind String.eqb Ascii.eqb Bool.eqb]. rewrite dict_unfold.
  change (ContextEntity.select false ?b (?x :: ?y :: ?rest))
    with (ContextEntity.select false b rest).
  now rewrite (select_properties _ _ Hn Hr).
Qed.

Lemma build_all_keys (attrs d : Py.dict ContextAttribute.t) :
  build_all build_item attrs = Ok d -> keys d = keys attrs.
Proof.
  revert d. induction attrs as [|[k a] r IH]; intros d; cbn [build_all].
  - intros [= <-]. reflexivity.
  - unfold build_item at 1.
    destruct (ContextAttribute.init _) as [a'|]; [|discriminate]. cbn [bind].
    destruct (build_all build_item r) as [xs|]; [|discriminate]. cbn [bind].
    intros [= <-]. cbn. f_equal. now apply IH.
Qed.

Lemma build_all_settled (attrs : Py.dict ContextAttribute.t) :
  Forall (fun p => settled (snd p) = true) attrs ->
  build_all build_item attrs = Ok (map replain_item attrs).
Proof.
  induction 1 as [|[k a] r Ha _ IH]; [reflexivity|].
  cbn [build_all map]. unfold build_item at 1.
  apply (proj2 (rebuild_settled_iff a)) in Ha.
  unfold rebuild in Ha. rewrite Ha. cbn [bind]. rewrite IH. reflexivity.
Qed.

(** C1: the flat entity with an attribute [temperature] of type
    [Number], value 20 and a metadata entry [unit] is constructed, and
    its dictionary has [None] where the metadata was: the original is
    not reproduced, the claim's coercion of the value and default
    metadata apart. *)
Theorem metadata_lost_in_roundtrip :
  ContextEntity.init (keys with_metadata) "Bcn-Welt" "Room" with_metadata =
    Ok temperature_entity
  /\ ContextEntity.dict temperature_entity =
     [("id", text "Bcn-Welt"); ("type", text "Room");
      ("temperature",
       VDict [("type", text "Number"); ("value", VScalar (SFloat twenty));
              ("metadata", VNone)])].
Proof. split; vm_compute; reflexivity. Qed.

(** C4: for the entity constructed from that flat object,
    [get_properties] in the dictionary format raises the validation
    error of the attribute it rebuilds, whose metadata is [None]; there
    is no view of the properties to join with the relationships, where
    the claim has the two views cover the attributes. No attribute with
    [None] as metadata can be rebuilt from its dictionary. *)
Theorem properties_view_raises :
  ContextEntity.init (keys with_metadata) "Bcn-Welt" "Room" with_metadata =
    Ok temperature_entity
  /\ ContextEntity.get_properties temperature_entity "dict" =
     Raise (ValidationError "ContextAttribute" [("metadata", Raised TypeError)])
  /\ ContextEntity.get_relationships temperature_entity "dict" =
     Ok (ContextEntity.AsDict [])
  /\ (forall (t : DataTypes) (v : scalar),
        is_ok (ContextAttribute.init
                 (ContextAttribute.dict
                    (ContextAttribute.Build t v (ContextAttribute.Raw VNone)))) =
        false).
Proof.
  split; [vm_compute; reflexivity|].
  split; [vm_compute; reflexivity|].
  split; [vm_compute; reflexivity|].
  intros t v. apply init_dict_none_metadata.
Qed.

(** X12: the relationships of a constructed entity are none, whatever
    the types of its attributes: the views compare the stored type with
    the member [RELATIONSHIP] by identity, and a stored type is a plain
    string or the default member [TEXT]. Both relationship views are
    empty, and a dictionary view of the properties, when there is one,
    has the names of all the attributes, those of type [Relationship]
    among them. *)
Theorem relationships_view_empty (order : list string) (id_ type_ : string)
    (data : Py.dict Py.value) (e : ContextEntity.t) :
  ContextEntity.init order id_ type_ data = Ok e ->
  dict_callable (ContextEntity.attributes e) ->
  ContextEntity.get_relationships e "dict" = Ok (ContextEntity.AsDict [])
  /\ ContextEntity.get_relationships e "list" = Ok (ContextEntity.AsList [])
  /\ (forall d, ContextEntity.get_properties e "dict" = Ok (ContextEntity.AsDict d) ->
        keys d = keys (ContextEntity.attributes e)).
Proof.
  intros H Hc. destruct (constructed_attributes_stored _ _ _ _ _ H) as [Hn Hst].
  apply stored_no_member_relationship in Hst.
  unfold ContextEntity.get_relationships, ContextEntity.get_properties.
  split; [apply (views_relationships e "dict" Hn Hst Hc)|].
  split; [apply (views_relationships e "list" Hn Hst Hc)|].
  intros d. rewrite (views_properties_dict e Hn Hst Hc).
  destruct (build_all build_item (ContextEntity.attributes e)) as [d'|] eqn:Hb;
    [|discriminate].
  cbn [bind]. intros [= <-]. now apply build_all_keys.
Qed.

Lemma relationships_view_empty_witness :
  let e := ContextEntity.Build "Bcn-Welt" "Room"
             [("owner", ContextAttribute.Build RELATIONSHIP (SStr "X")
                          (ContextAttribute.Raw (VDict [])));
              ("temp", number 5)] in
  ContextEntity.get_relationships e "dict" = Ok (ContextEntity.AsDict [])
  /\ ContextEntity.get_relationships e "list" = Ok (ContextEntity.AsList [])
  /\ (forall d, ContextEntity.get_properties e "dict" = Ok (ContextEntity.AsDict d) ->
        keys d = keys (ContextEntity.attributes e)).
Proof.
  apply (relationships_view_empty (keys owner_payload) "Bcn-Welt" "Room" owner_payload).
  - vm_compute. reflexivity.
  - repeat constructor.
Defined.

(** The example of the spec for the filter: the attribute [owner] of
    type [Relationship] is listed among the properties, and there is no
    relationship. *)
Example relationship_filtering :
  exists e,
    ContextEntity.init ["owner"; "temp"] "Bcn-Welt" "Room" owner_payload = Ok e
    /\ ContextEntity.get_relationships e "dict" = Ok (ContextEntity.AsDict [])
    /\ ContextEntity.get_properties e "dict" =
       Ok (ContextEntity.AsDict
             [("owner", ContextAttribute.Build RELATIONSHIP (SStr "X")
                          (ContextAttribute.Raw (VDict [])));
              ("temp", number 5)]).
Proof. eexists. repeat split; vm_compute; reflexivity. Qed.

(** Basic construction: the value 20 is stored as the float 20.0. *)
Example basic_construction :
  exists e,
    ContextEntity.init ["temperature"] "Bcn-Welt" "Room" room_payload = Ok e
    /\ ContextEntity.get_properties e "dict" =
       Ok (ContextEntity.AsDict [("temperature", number 20)])
    /\ str_ (ContextAttribute.value (number 20)) = "20.0".
Proof. eexists. repeat split; vm_compute; reflexivity. Qed.

End Views.

(** ** The list views *)

Section ListViews.

Import Py.

Lemma init_validate_fields (kw : Py.dict Py.value) (a : ContextAttribute.t) :
  ContextAttribute.init kw = Ok a ->
  ContextAttribute.validate_fields kw = Ok (Some a, []).
Proof.
  unfold ContextAttribute.init, ContextAttribute.validate_fields.
  destruct (ContextAttribute.validate_type _) as [x|e1]; cbn [validated];
    destruct (ContextAttribute.validate_value _ _) as [[r|e2]|err]; cbn [bind];
    try discriminate;
    destruct (ContextAttribute.validate_metadata _) as [m|e3]; try discriminate.
  intros [= <-]. reflexivity.
Qed.

Lemma named_init_dict (k : string) (a : ContextAttribute.t) :
  settled a = true ->
  NamedContextAttribute.init k (ContextAttribute.dict a) =
  if name_ok k then Ok (NamedContextAttribute.Build k (replain a))
  else Raise (ValidationError "NamedContextAttribute"
                (add_error "name" (constr Patterns.attribute_name k) [])).
Proof.
  intros Ha. apply (proj2 (rebuild_settled_iff a)) in Ha.
  unfold NamedContextAttribute.init, name_ok.
  rewrite (init_validate_fields _ _ Ha). cbn [bind].
  destruct (constr Patterns.attribute_name k) as [n|e] eqn:E; [|reflexivity].
  apply constr_inl in E. now subst.
Qed.

Lemma build_all_named (attrs : Py.dict ContextAttribute.t) :
  Forall (fun p => settled (snd p) = true) attrs ->
  (Forall (fun p => name_ok (fst p) = true) attrs ->
   build_all NamedContextAttribute.init attrs =
   Ok (map to_named (map replain_item attrs)))
  /\ is_ok (build_all NamedContextAttribute.init attrs) =
     forallb name_ok (keys attrs).
Proof.
  unfold keys.
  induction 1 as [|[k a] r Ha _ [IH1 IH2]]; [split; reflexivity|].
  cbn [fst snd] in Ha. cbn [build_all map fst forallb].
  rewrite (named_init_dict k a Ha).
  destruct (name_ok k) eqn:Hok; cbn [bind].
  - split.
    + intros Hall. inversion Hall as [|? ? _ Hall']; subst.
      rewrite (IH1 Hall'). reflexivity.
    + cbn [andb]. rewrite <- IH2.
      destruct (build_all _ r); reflexivity.
  - split; [|reflexivity].
    intros Hall. inversion Hall as [|? ? Hbad _]; subst. cbn in Hbad. congruence.
Qed.

(** X18: for an entity with settled attributes, the properties in the
    list format are made exactly when every name of an attribute passes
    the check of [NamedContextAttribute.name]; names are not checked when
    the entity is constructed, so the list view can raise where the
    dictionary view is returned. *)
Theorem list_view_needs_valid_names (e : ContextEntity.t) :
  extra_names (ContextEntity.attributes e) ->
  no_member_relationship (ContextEntity.attributes e) ->
  dict_callable (ContextEntity.attributes e) ->
  Forall (fun p => settled (snd p) = true) (ContextEntity.attributes e) ->
  is_ok (ContextEntity.get_properties e "list") =
    forallb name_ok (keys (ContextEntity.attributes e))
  /\ is_ok (ContextEntity.get_properties e "dict") = true.
Proof.
  intros Hn Hr Hc Hs. unfold ContextEntity.get_properties. split.
  - rewrite (views_properties_list e Hn Hr Hc).
    rewrite <- (proj2 (build_all_named _ Hs)).
    destruct (build_all _ _); reflexivity.
  - rewrite (views_properties_dict e Hn Hr Hc), (build_all_settled _ Hs).
    reflexivity.
Qed.

Lemma list_view_needs_valid_names_witness :
  let e := ContextEntity.Build "Bcn-Welt" "Room" [("a?b", number 1)] in
  is_ok (ContextEntity.get_properties e "list") =
    forallb name_ok (keys (ContextEntity.attributes e))
  /\ is_ok (ContextEntity.get_properties e "dict") = true.
Proof.
  apply (list_view_needs_valid_names
           (ContextEntity.Build "Bcn-Welt" "Room" [("a?b", number 1)])).
  - repeat constructor.
  - repeat constructor; discriminate.
  - repeat constructor.
  - repeat constructor.
Defined.

(** X19: when the names pass that check, the properties of an entity
    with settled attributes are, in the list format, all its attributes,
    each with its name and in the order of the entity; in the dictionary
    format they are the same attributes under their names; the type of
    each is the plain string, also where the entity holds the default
    member. *)
Theorem list_view_settled (e : ContextEntity.t) :
  extra_names (ContextEntity.attributes e) ->
  no_member_relationship (ContextEntity.attributes e) ->
  dict_callable (ContextEntity.attributes e) ->
  Forall (fun p => settled (snd p) = true) (ContextEntity.attributes e) ->
  Forall (fun p => name_ok (fst p) = true) (ContextEntity.attributes e) ->
  ContextEntity.get_properties e "list" =
    Ok (ContextEntity.AsList
          (map to_named (map replain_item (ContextEntity.attributes e))))
  /\ ContextEntity.get_properties e "dict" =
    Ok (ContextEntity.AsDict (map replain_item (ContextEntity.attributes e))).
Proof.
  intros Hn Hr Hc Hs Hnames. unfold ContextEntity.get_properties. split.
  - rewrite (views_properties_list e Hn Hr Hc).
    rewrite (proj1 (build_all_named _ Hs) Hnames). reflexivity.
  - rewrite (views_properties_dict e Hn Hr Hc), (build_all_settled _ Hs).
    reflexivity.
Qed.

Lemma list_view_settled_witness :
  ContextEntity.get_properties room_ab "list" =
    Ok (ContextEntity.AsList
          (map to_named (map replain_item (ContextEntity.attributes room_ab))))
  /\ ContextEntity.get_properties room_ab "dict" =
    Ok (ContextEntity.AsDict (map replain_item (ContextEntity.attributes room_ab))).
Proof.
  apply (list_view_settled room_ab); repeat constructor; discriminate.
Defined.

End ListViews.
(** ** Round trip through an entity *)

Section RoundTrip.

Import Py.









(** X13: the attributes of a constructed entity are the raw attributes,
    each under its name and parsed by [parse_obj]; no name is checked,
    dropped or added, and they stand in the order in which the set of
    their names is iterated, not in the order of the arguments. *)
Theorem constructed_attributes (order : list string) (id_ type_ : string)
    (data : Py.dict Py.value) (e : ContextEntity.t) :
  iteration order (keys data) ->
  ContextEntity.init order id_ type_ data = Ok e ->
  keys (ContextEntity.attributes e) = order
  /\ forall k,
       match get k data with
       | Some attr =>
           exists a, ContextAttribute.parse_obj attr = Ok a
                     /\ get k (ContextEntity.attributes e) = Some a
       | None => get k (ContextEntity.attributes e) = None
       end.
Proof.
  intros Hord H. destruct (init_inv _ _ _ _ _ H) as (attrs & Hkw & Hv & _ & ->).
  cbn [ContextEntity.attributes].
  pose proof (_validate_properties_items _ _ Hkw Hv) as Hitems.
  pose proof (items_keys _ _ Hitems) as Hkeys.
  split.
  - apply keys_arrange. intros k Hk. rewrite Hkeys.
    eapply Permutation_in; [exact Hord | exact Hk].
  - intros k. pose proof (items_get _ _ Hitems k) as Hg.
    rewrite get_arrange.
    destruct (get k data) as [attr|] eqn:Hd.
    + destruct Hg as (a & Hp & Ha). exists a. split; [exact Hp|].
      assert (Hin : In k order).
      { eapply Permutation_in; [symmetry; exact Hord|].
        rewrite <- Hkeys. apply get_Some_In in Ha.
        unfold keys. apply in_map_iff. now exists (k, a). }
      apply mem_In in Hin. now rewrite Hin.
    + rewrite Hg. now destruct (mem k order).
Qed.

Lemma constructed_attributes_witness :
  keys (ContextEntity.attributes
          (ContextEntity.Build "Bcn-Welt" "Room"
             [("temp", number 5);
              ("owner", ContextAttribute.Build RELATIONSHIP (SStr "X")
                          (ContextAttribute.Raw (VDict [])))])) =
    ["temp"; "owner"]
  /\ forall k,
       match get k owner_payload with
       | Some attr =>
           exists a, ContextAttribute.parse_obj attr = Ok a
                     /\ get k (ContextEntity.attributes
                                 (ContextEntity.Build "Bcn-Welt" "Room"
                                    [("temp", number 5);
                                     ("owner",
                                      ContextAttribute.Build RELATIONSHIP (SStr "X")
                                        (ContextAttribute.Raw (VDict [])))])) = Some a
       | None =>
           get k (ContextEntity.attributes
                    (ContextEntity.Build "Bcn-Welt" "Room"
                       [("temp", number 5);
                        ("owner",
                         ContextAttribute.Build RELATIONSHIP (SStr "X")
                           (ContextAttribute.Raw (VDict [])))])) = None
       end.
Proof.
  apply (constructed_attributes ["temp"; "owner"] "Bcn-Welt" "Room" owner_payload).
  - apply perm_swap.
  - vm_compute. reflexivity.
Defined.




End RoundTrip.
(** ** Merging attributes into an entity *)

Section Merge.

Import Py.





(** The example of the spec with a mapping as argument. *)
Example merge_overwrite_mapping :
  ContextEntity.add_properties room_ab (ContextEntity.AsDict [("a", number 3)]) =
  (ContextEntity.Build "Bcn-Welt" "Room" [("a", number 3); ("b", number 2)], None).
Proof. reflexivity. Qed.

(** C8: with a sequence of [NamedContextAttribute] that is not empty,
    [add_properties] raises [TypeError] while it normalizes the sequence,
    and the entity stays as it was: no entry is inserted or replaced,
    where the claim has each of them stored. From attributes [a: 1, b: 2]
    the sequence holding [a: 3] leaves [a: 1, b: 2]. *)
Theorem add_properties_sequence_raises :
  (forall (e : ContextEntity.t) (attr : NamedContextAttribute.t)
          (rest : list NamedContextAttribute.t),
     ContextEntity.add_properties e (ContextEntity.AsList (attr :: rest)) =
     (e, Some (Uncaught TypeError)))
  /\ ContextEntity.add_properties room_ab
       (ContextEntity.AsList [NamedContextAttribute.Build "a" (number 3)]) =
     (room_ab, Some (Uncaught TypeError)).
Proof. split; reflexivity. Qed.

End Merge.

(** ** Mutation of an entity *)

Section EntityMutation.

Import Py.




Lemma extra_names_set (k : string) (a : ContextAttribute.t)
    (attrs : Py.dict ContextAttribute.t) :
  mem k ContextEntity.fields = false -> extra_names attrs ->
  extra_names (set k a attrs).
Proof.
  intros Hk. unfold extra_names.
  induction attrs as [|[k' a'] r IH]; intros Hn; cbn [set].
  - repeat constructor. exact Hk.
  - inversion Hn as [|? ? Hk' Hn']; subst.
    destruct (String.eqb k k'); constructor; auto.
Qed.

Lemma assign_all_invariant (d : Py.dict ContextAttribute.t) :
  forall e,
  ContextEntity.id (fst (ContextEntity.assign_all e d)) = ContextEntity.id e
  /\ ContextEntity.type (fst (ContextEntity.assign_all e d)) = ContextEntity.type e
  /\ (extra_names (ContextEntity.attributes e) ->
      extra_names (ContextEntity.attributes (fst (ContextEntity.assign_all e d)))).
Proof.
  induction d as [|[k a] r IH]; intros e; [cbn; tauto|].
  cbn [ContextEntity.assign_all]. unfold ContextEntity.__setattr__.
  destruct (mem k ContextEntity.fields) eqn:Hk; [cbn; tauto|].
  destruct (IH (ContextEntity.Build (ContextEntity.id e) (ContextEntity.type e)
                  (set k a (ContextEntity.attributes e)))) as (H1 & H2 & H3).
  cbn [ContextEntity.id ContextEntity.type ContextEntity.attributes] in H1, H2, H3.
  split; [exact H1|]. split; [exact H2|].
  intros Hn. apply H3. now apply extra_names_set.
Qed.

(** X17: whatever its argument and whether it raises or not,
    [add_properties] leaves the id and the type of the entity as they
    are, and it never stores an attribute under the name [id] or
    [type]. *)
Theorem add_properties_keeps_identity (e : ContextEntity.t)
    (attrs : ContextEntity.view) :
  ContextEntity.id (fst (ContextEntity.add_properties e attrs)) = ContextEntity.id e
  /\ ContextEntity.type (fst (ContextEntity.add_properties e attrs)) =
     ContextEntity.type e
  /\ (extra_names (ContextEntity.attributes e) ->
      extra_names
        (ContextEntity.attributes (fst (ContextEntity.add_properties e attrs)))).
Proof.
  destruct attrs as [d|l]; cbn [ContextEntity.add_properties].
  - apply assign_all_invariant.
  - destruct l as [|x r]; cbn; tauto.
Qed.

Lemma add_properties_keeps_identity_witness :
  extra_names
    (ContextEntity.attributes
       (fst (ContextEntity.add_properties room_ab
               (ContextEntity.AsDict [("c", number 4); ("type", number 7)])))).
Proof.
  apply (add_properties_keeps_identity room_ab
           (ContextEntity.AsDict [("c", number 4); ("type", number 7)])).
  repeat constructor.
Defined.

End EntityMutation.

(** ** The model factory *)

Section FactoryFacts.

Import Py.

(** Names that are neither passed over nor refused are declared as they
    come. *)
Lemma declare_plain (properties : list string) :
  Forall (fun k => Factory.starts_with_underscore k = false
                   /\ mem k Factory.model_attributes = false) properties ->
  Factory.declare properties = Ok properties.
Proof.
  induction 1 as [|k r [Hu Hm] _ IH]; [reflexivity|].
  cbn [Factory.declare]. rewrite Hu, Hm. cbn [andb bind]. now rewrite IH.
Qed.

(** X20: with an attribute named [temperature] in the sample, and no key
    that starts with an underscore or is the name of an attribute of the
    base class, the required fields of the model are the keys of the
    sample other than the declared fields, in their order. *)
Theorem create_with_temperature (name : option string) (d : Py.dict Py.value) :
  In Factory.validated_field (keys d) ->
  Forall (fun k => Factory.starts_with_underscore k = false
                   /\ mem k Factory.model_attributes = false) (keys d) ->
  Factory.create_context_entity_model name (Some d) =
  Ok (Factory.Build (Factory.name_or_default name)
        (List.filter (fun key => negb (mem key ContextEntity.fields)) (keys d))).
Proof.
  intros Hin Hplain. unfold Factory.create_context_entity_model.
  set (properties := List.filter _ (keys d)).
  assert (Hp : Forall (fun k => Factory.starts_with_underscore k = false
                                /\ mem k Factory.model_attributes = false) properties).
  { apply List.Forall_forall. intros k Hk. apply List.filter_In in Hk as [Hk _].
    rewrite List.Forall_forall in Hplain. now apply Hplain. }
  rewrite (declare_plain _ Hp). cbn [bind].
  assert (Hroot : mem "__root__" properties = false).
  { apply not_true_is_false. intros Hm. apply mem_In in Hm.
    rewrite List.Forall_forall in Hp. destruct (Hp _ Hm) as [Hu _]. discriminate. }
  rewrite Hroot.
  assert (H : mem Factory.validated_field (ContextEntity.fields ++ properties)%list
              = true).
  { apply mem_In. apply List.in_or_app. right. apply List.filter_In.
    split; [assumption | reflexivity]. }
  rewrite H, orb_true_r. reflexivity.
Qed.

Lemma create_with_temperature_witness :
  Factory.create_context_entity_model (Some "Room") (Some temperature_sample) =
  Ok (Factory.Build (Factory.name_or_default (Some "Room"))
        (List.filter (fun key => negb (mem key ContextEntity.fields))
           (keys temperature_sample))).
Proof.
  apply (create_with_temperature (Some "Room") temperature_sample).
  - right. right. left. reflexivity.
  - repeat constructor.
Defined.

(** Names the class under creation does not take as they come: a key
    that starts with an underscore is no field of the model, and a key
    that is the name of a method of the base class ends the call with
    [NameError]. *)
Example factory_special_names :
  Factory.create_context_entity_model None
    (Some [("temperature", VDict []); ("_hidden", VDict [])]) =
    Ok (Factory.Build "GeneratedContextEntity" ["temperature"])
  /\ Factory.create_context_entity_model None
       (Some [("temperature", VDict []); ("copy", VDict [])]) =
     Raise (NameError "copy").
Proof. split; reflexivity. Qed.

(** C10: for a sample whose only attribute is [humidity], the factory
    returns no model: the validator it attaches to the field
    [temperature] has no field to go with, and the call ends in a
    [ConfigError], where the claim has a model for every sample. For the
    sample with [temperature] and [humidity] it returns the model with
    these two required fields. *)
Theorem factory_needs_temperature :
  Factory.create_context_entity_model None (Some humidity_sample) =
    Raise (ConfigError "Validators defined with incorrect fields: username_alphanumeric")
  /\ Factory.create_context_entity_model (Some "Room") (Some temperature_sample) =
    Ok (Factory.Build "Room" ["temperature"; "humidity"]).
Proof. split; reflexivity. Qed.

End FactoryFacts.

(** ** Generated models *)

Section GeneratedModels.

Import Py.

Lemma get_app {V : Type} (k : string) (d1 d2 : Py.dict V) :
  get k (d1 ++ d2)%list =
  match get k d1 with
  | Some v => Some v
  | None => get k d2
  end.
Proof.
  induction d1 as [|[k' v] r IH]; [reflexivity|].
  cbn. destruct (String.eqb k k'); [reflexivity | exact IH].
Qed.

Lemma get_filter_key {V : Type} (P : string -> bool) (k : string) (d : Py.dict V) :
  get k (List.filter (fun p => P (fst p)) d) = if P k then get k d else None.
Proof.
  induction d as [|[k' v] r IH]; [now destruct (P k)|].
  cbn [List.filter fst]. destruct (String.eqb k k') eqn:E.
  - apply String.eqb_eq in E. subst k'.
    destruct (P k) eqn:HP; cbn [get]; rewrite ?String.eqb_refl; [reflexivity|].
    rewrite IH, ?HP. reflexivity.
  - destruct (P k'); cbn [get]; rewrite ?E; exact IH.
Qed.

Lemma get_Some_key {V : Type} (k : string) (v : V) (d : Py.dict V) :
  get k d = Some v -> In k (keys d).
Proof.
  intros H. apply get_Some_In in H. unfold keys. apply in_map_iff. now exists (k, v).
Qed.

(** Rearranging by an order that has every name keeps every lookup. *)
Lemma get_arrange_full {V : Type} (order : list string) (d : Py.dict V) (k : string) :
  (In k (keys d) -> In k order) ->
  get k (arrange order d) = get k d.
Proof.
  intros H. rewrite get_arrange.
  destruct (mem k order) eqn:Hm; [reflexivity|].
  destruct (get k d) as [v|] eqn:Hg; [|reflexivity].
  apply get_Some_key, H, mem_In in Hg. congruence.
Qed.

(** The attributes of a generated model, looked up by name. *)
Lemma get_generated (required order : list string)
    (attrs : Py.dict ContextAttribute.t) (k : string) :
  (In k (keys attrs) -> mem k required = false -> In k order) ->
  get k (arrange required attrs
         ++ arrange order
              (List.filter (fun p => negb (mem (fst p) required)) attrs))%list =
  get k attrs.
Proof.
  intros H. rewrite get_app, !get_arrange.
  rewrite (get_filter_key (fun k => negb (mem k required))).
  destruct (mem k required) eqn:Hreq; cbn [negb].
  - destruct (get k attrs); [reflexivity|]. now destruct (mem k order).
  - destruct (get k attrs) as [v|] eqn:Hg; [|now destruct (mem k order)].
    assert (Hin : In k order) by (apply H; [eapply get_Some_key, Hg | reflexivity]).
    apply mem_In in Hin. now rewrite Hin.
Qed.

Lemma missing_none (required ks : list string) :
  List.filter (fun k => negb (mem k ks)) required = [] <->
  Forall (fun k => In k ks) required.
Proof.
  induction required as [|k r IH]; [split; [constructor | reflexivity]|].
  cbn [List.filter]. destruct (mem k ks) eqn:Hk; cbn [negb].
  - apply mem_In in Hk. rewrite IH. split.
    + intros H. now constructor.
    + intros H. now inversion H.
  - split; [discriminate|]. intros H. inversion H as [|? ? Hin _]; subst.
    apply mem_In in Hin. congruence.
Qed.

(** X21: a generated model makes an entity exactly when [ContextEntity]
    makes one from the same arguments and every required attribute is
    among its attributes; the two entities are equal, with the same id,
    type and attributes. They differ in the order of the attributes
    only: the model stores its required fields first. The model adds
    the presence of attributes to the checks of its base and changes
    none of them. *)
Theorem generated_model_iff (m : Factory.EntityModel) (order order' : list string)
    (id_ type_ : string) (data : Py.dict Py.value) :
  iteration order
    (List.filter (fun k => negb (mem k (Factory.required m))) (keys data)) ->
  iteration order' (keys data) ->
  (forall e, Factory.init m order id_ type_ data = Ok e ->
     exists e', ContextEntity.init order' id_ type_ data = Ok e'
                /\ same_entity e e'
                /\ Forall (fun k => In k (keys (ContextEntity.attributes e')))
                     (Factory.required m))
  /\ (forall e', ContextEntity.init order' id_ type_ data = Ok e' ->
        Forall (fun k => In k (keys (ContextEntity.attributes e')))
          (Factory.required m) ->
        exists e, Factory.init m order id_ type_ data = Ok e /\ same_entity e e').
Proof.
  intros Hord Hord'.
  unfold Factory.init, ContextEntity.init.
  destruct (existsb _ (keys data)) eqn:Hkw;
    [split; [intros e H | intros e H]; discriminate|].
  destruct (ContextEntity._validate_properties data) as [attrs|err] eqn:Hv;
    [|split; [intros e H | intros e H]; discriminate].
  cbn [bind].
  pose proof (items_keys _ _ (_validate_properties_items _ _ Hkw Hv)) as Hkeys.
  assert (Hk' : keys (arrange order' attrs) = order').
  { apply keys_arrange. intros k Hk. rewrite Hkeys.
    eapply Permutation_in; [exact Hord' | exact Hk]. }
  assert (Hsame : forall k,
    get k (arrange (Factory.required m) attrs
           ++ arrange order
                (List.filter (fun p => negb (mem (fst p) (Factory.required m))) attrs))%list
    = get k (arrange order' attrs)).
  { intros k. rewrite get_generated, get_arrange_full; [reflexivity| |].
    - intros Hin. rewrite Hkeys in Hin.
      eapply Permutation_in; [symmetry; exact Hord' | exact Hin].
    - intros Hin Hreq. rewrite Hkeys in Hin.
      eapply Permutation_in; [symmetry; exact Hord|].
      apply List.filter_In. split; [exact Hin | now rewrite Hreq]. }
  assert (Hreq : Forall (fun k => In k order') (Factory.required m) <->
                 Forall (fun k => In k (keys attrs)) (Factory.required m)).
  { rewrite !List.Forall_forall. split; intros H k Hk.
    - rewrite Hkeys. eapply Permutation_in; [exact Hord' | now apply H].
    - eapply Permutation_in; [symmetry; exact Hord'|]. rewrite <- Hkeys. now apply H. }
  destruct (ContextEntity.validate_identity id_ type_) as [|x xs];
    [|split; [intros e H | intros e H]; discriminate].
  cbn [app]. split.
  - intros e H.
    destruct (List.filter _ (Factory.required m)) as [|y ys] eqn:Hmiss;
      [|discriminate].
    cbn [map] in H. injection H as <-.
    eexists. split; [reflexivity|]. split.
    + split; [reflexivity|]. split; [reflexivity|]. exact Hsame.
    + cbn [ContextEntity.attributes]. rewrite Hk'. apply Hreq.
      now apply missing_none.
  - intros e' H Hall. injection H as <-.
    cbn [ContextEntity.attributes] in Hall. rewrite Hk' in Hall.
    apply Hreq, missing_none in Hall. rewrite Hall. cbn [map].
    eexists. split; [reflexivity|].
    split; [reflexivity|]. split; [reflexivity|]. exact Hsame.
Qed.

Lemma generated_model_iff_witness :
  (forall e,
     Factory.init (Factory.Build "Room" ["temp"]) ["owner"] "Bcn-Welt" "Room"
       owner_payload = Ok e ->
     exists e', ContextEntity.init ["owner"; "temp"] "Bcn-Welt" "Room" owner_payload =
                Ok e'
                /\ same_entity e e'
                /\ Forall (fun k => In k (keys (ContextEntity.attributes e')))
                     (Factory.required (Factory.Build "Room" ["temp"])))
  /\ (forall e',
        ContextEntity.init ["owner"; "temp"] "Bcn-Welt" "Room" owner_payload = Ok e' ->
        Forall (fun k => In k (keys (ContextEntity.attributes e')))
          (Factory.required (Factory.Build "Room" ["temp"])) ->
        exists e,
          Factory.init (Factory.Build "Room" ["temp"]) ["owner"] "Bcn-Welt" "Room"
            owner_payload = Ok e
          /\ same_entity e e').
Proof.
  apply (generated_model_iff (Factory.Build "Room" ["temp"]) ["owner"]
           ["owner"; "temp"] "Bcn-Welt" "Room" owner_payload);
    apply Permutation_refl.
Defined.

(** A generated model at a payload that has the required attribute, and
    at one that lacks it: the required attribute comes first. *)
Example generated_room :
  Factory.init (Factory.Build "Room" ["temp"]) ["owner"] "Bcn-Welt" "Room"
    owner_payload =
    Ok (ContextEntity.Build "Bcn-Welt" "Room"
          [("temp", number 5);
           ("owner", ContextAttribute.Build RELATIONSHIP (SStr "X")
                       (ContextAttribute.Raw (VDict [])))])
  /\ is_ok (Factory.init (Factory.Build "Room" ["temperature"]) ["owner"; "temp"]
              "Bcn-Welt" "Room" owner_payload) = false.
Proof. split; vm_compute; reflexivity. Qed.

End GeneratedModels.
(** * Further properties of the models *)

(** ** Names and ids, character by character *)

Section NameCharacters.

Import Regex Patterns.

Lemma one_of_In (excluded : string) (c : ascii) :
  one_of excluded c = true <-> In c (PyStr.to_list excluded).
Proof.
  unfold one_of. rewrite existsb_exists. split.
  - intros (x & Hx & E). apply Ascii.eqb_eq in E. now subst.
  - intros H. exists c. split; [assumption | apply Ascii.eqb_refl].
Qed.

Lemma allowed_spec (excluded : string) (c : ascii) :
  allowed excluded c = true <->
  PyStr.code c <= 127 /\ ~ In c (PyStr.to_list excluded).
Proof.
  unfold allowed, ascii_range.
  rewrite andb_true_iff, negb_true_iff, Z.leb_le, <- one_of_In.
  destruct (one_of excluded c); intuition congruence.
Qed.

Lemma length_to_list (s : string) : length (PyStr.to_list s) = String.length s.
Proof. induction s as [|c r IH]; cbn; congruence. Qed.

Lemma constr_anchored (excluded : string) (s : string) :
  allowed excluded "010" = true ->
  constr (Cat Bol (Cat (Star (safe_char excluded)) Eol)) s = inl s <->
  name_chars excluded s.
Proof.
  intros Hnl. unfold constr, name_chars. rewrite (anchored_match excluded s Hnl).
  destruct (Z.of_nat (String.length s) <? 1) eqn:E1.
  { apply Z.ltb_lt in E1. split; [discriminate | lia]. }
  destruct (256 <? Z.of_nat (String.length s)) eqn:E2.
  { apply Z.ltb_lt in E2. split; [discriminate | lia]. }
  apply Z.ltb_ge in E1, E2.
  destruct (forallb (allowed excluded) (PyStr.to_list s)) eqn:E3.
  - rewrite forallb_forall in E3. split; [|reflexivity].
    intros _. split; [lia|]. intros c Hc. apply allowed_spec. now apply E3.
  - split; [discriminate|]. intros [_ Hall].
    assert (forallb (allowed excluded) (PyStr.to_list s) = true); [|congruence].
    apply forallb_forall. intros c Hc. apply allowed_spec. now apply Hall.
Qed.

(** X1: the check of the entity id and type accepts a string exactly when
    it has 1 to 256 characters, all ASCII and none of [?], [&], [#], [/];
    a constructed entity has such an id and such a type, the ones it was
    given. *)
Theorem entity_identity_characters :
  (forall s, constr fiware_safe s = inl s <-> name_chars "?&#/" s)
  /\ (forall order id_ type_ data e,
        ContextEntity.init order id_ type_ data = Ok e ->
        ContextEntity.id e = id_ /\ ContextEntity.type e = type_
        /\ name_chars "?&#/" id_ /\ name_chars "?&#/" type_).
Proof.
  assert (Hc : forall s, constr fiware_safe s = inl s <-> name_chars "?&#/" s).
  { intros s. apply constr_anchored. reflexivity. }
  split; [exact Hc|].
  intros order id_ type_ data e. unfold ContextEntity.init.
  destruct (existsb _ (Py.keys data)); [discriminate|].
  destruct (ContextEntity._validate_properties data) as [attrs|err]; [|discriminate].
  cbn [bind]. unfold ContextEntity.validate_identity.
  destruct (constr fiware_safe id_) as [i|ei] eqn:Hi;
    destruct (constr fiware_safe type_) as [t|et] eqn:Ht;
    cbn [add_error app]; try discriminate.
  intros H. injection H as <-. cbn.
  assert (i = id_ /\ t = type_) as [-> ->].
  { unfold constr in Hi, Ht.
    repeat match goal with
           | H : (if ?c then _ else _) = inl _ |- _ => destruct c; try discriminate
           end.
    split; congruence. }
  split; [reflexivity|]. split; [reflexivity|]. split; apply Hc; assumption.
Qed.

Lemma entity_identity_characters_witness :
  ContextEntity.id (ContextEntity.Build "Bcn-Welt" "Room" []) = "Bcn-Welt"
  /\ ContextEntity.type (ContextEntity.Build "Bcn-Welt" "Room" []) = "Room"
  /\ name_chars "?&#/" "Bcn-Welt" /\ name_chars "?&#/" "Room".
Proof.
  apply (proj2 entity_identity_characters [] "Bcn-Welt" "Room" []).
  vm_compute. reflexivity.
Defined.

End NameCharacters.

(** ** Named attributes and metadata *)

Section NamedModels.

Import Regex Patterns Py.

Lemma tag_of_value_tag_value (t : DataTypes) : tag_of_value (tag_value t) = Some t.
Proof. destruct t; reflexivity. Qed.

Lemma tag_of_value_inv (s : string) (t : DataTypes) :
  tag_of_value s = Some t -> tag_value t = s.
Proof.
  unfold tag_of_value. intros H. apply find_some in H. destruct H as [_ H].
  now apply String.eqb_eq in H.
Qed.

(** The optional field of class [DataTypes]. *)
Lemma optional_member_spec (raw : option Py.value) (res : option DataTypes) :
  ContextMetadata.optional_member raw = inl res <-> tag_field raw res.
Proof.
  unfold ContextMetadata.optional_member, tag_field. split.
  - destruct raw as [[|[x|n|b|s]|t|d]|]; try discriminate;
      try (intros H; injection H as <-; left; split; [tauto | reflexivity]).
    + destruct (tag_of_value s) as [t|] eqn:E; [|discriminate].
      intros H. injection H as <-. right. exists t.
      apply tag_of_value_inv in E. subst s. split; [left|]; reflexivity.
    + intros H. injection H as <-. right. exists t. split; [right|]; reflexivity.
  - intros [[[-> | ->] ->] | (t & [-> | ->] & ->)]; try reflexivity.
    unfold text. now rewrite tag_of_value_tag_value.
Qed.

(** The optional field that is a constrained string. *)
Lemma optional_str_spec (excluded : string) (raw : option Py.value)
    (res : option string) :
  allowed excluded "010" = true ->
  ContextMetadata.optional_str (Cat Bol (Cat (Star (safe_char excluded)) Eol)) raw =
    inl res <->
  str_field excluded raw res.
Proof.
  intros Hnl. unfold ContextMetadata.optional_str, str_field, constrained_str. split.
  - destruct raw as [v|]; [|intros [= <-]; left; tauto].
    destruct v as [|sc|t|d] eqn:Hv;
      try (intros [= <-]; left; tauto); try discriminate.
    + cbn [Pydantic.str_validator].
      destruct (constr _ (str_ sc)) as [s|] eqn:Hc; [|discriminate].
      intros [= <-]. pose proof (constr_inl _ _ _ Hc). subst s.
      right. exists (VScalar sc), (str_ sc).
      split; [reflexivity|]. split; [discriminate|]. split; [reflexivity|].
      split; [|reflexivity]. now apply (constr_anchored excluded).
    + cbn [Pydantic.str_validator].
      destruct (constr _ (tag_value t)) as [s|] eqn:Hc; [|discriminate].
      intros [= <-]. pose proof (constr_inl _ _ _ Hc). subst s.
      right. exists (VEnum t), (tag_value t).
      split; [reflexivity|]. split; [discriminate|]. split; [reflexivity|].
      split; [|reflexivity]. now apply (constr_anchored excluded).
  - intros [[[-> | ->] ->] | (v & s & -> & Hne & Hs & Hc & ->)]; try reflexivity.
    apply (constr_anchored excluded s Hnl) in Hc.
    destruct v; try contradiction; try discriminate; rewrite Hs, Hc; reflexivity.
Qed.

(** X2: [ContextMetadata] is constructed exactly when its [type] is
    absent, [None], or a value that the validator of [str] reads as a
    string of 1 to 256 ASCII characters, none of [?], [&], [#], [/],
    [*], and its [value] is absent, [None], a member of [DataTypes] or
    the value of one. The type need not be the value of a member; the
    value of a metadata has to be one, and cannot be a number or any
    other string. *)
Theorem metadata_accepted_iff (kw : Py.dict Py.value) (m : ContextMetadata.t) :
  ContextMetadata.init kw = Ok m <->
  str_field "?&#/*" (get "type" kw) (ContextMetadata.type m)
  /\ tag_field (get "value" kw) (ContextMetadata.value m).
Proof.
  rewrite <- (optional_str_spec "?&#/*") by reflexivity.
  rewrite <- optional_member_spec.
  unfold ContextMetadata.init. destruct m as [ty va]. cbn.
  change (Cat Bol (Cat (Star (safe_char "?&#/*")) Eol)) with fiware_safe_star.
  destruct (ContextMetadata.optional_str _ (get "type" kw)) as [ty'|e1];
    destruct (ContextMetadata.optional_member (get "value" kw)) as [va'|e2];
    split; intros H; try discriminate; try (destruct H; discriminate).
  - injection H as -> ->. split; reflexivity.
  - destruct H as [H1 H2]. injection H1 as ->. injection H2 as ->. reflexivity.
Qed.

(** A metadata whose type is no member of [DataTypes], and one whose
    value is a number. *)
Example metadata_samples :
  ContextMetadata.init [("type", text "Foo")] =
    Ok (ContextMetadata.Build (Some "Foo") None)
  /\ ContextMetadata.init [("type", int 20); ("value", text "Number")] =
    Ok (ContextMetadata.Build (Some "20") (Some NUMBER))
  /\ ContextMetadata.init [("value", int 20)] =
    Raise (ValidationError "ContextMetadata" [("value", EnumError)]).
Proof. repeat split; vm_compute; reflexivity. Qed.

(** X3: [NamedContextMetadata] is constructed exactly when the name has
    1 to 256 ASCII characters, none of [?], [&], [#], [/], [*], and the
    other arguments make a [ContextMetadata]; it holds that name and
    that metadata. *)
Theorem named_metadata_accepted_iff (name_ : string) (kw : Py.dict Py.value)
    (n : NamedContextMetadata.t) :
  NamedContextMetadata.init name_ kw = Ok n <->
  name_chars "?&#/*" name_
  /\ NamedContextMetadata.name n = name_
  /\ ContextMetadata.init kw = Ok (NamedContextMetadata.metadata n).
Proof.
  assert (Hc : constr fiware_safe_star name_ = inl name_ <-> name_chars "?&#/*" name_)
    by (apply constr_anchored; reflexivity).
  rewrite <- Hc. clear Hc.
  unfold NamedContextMetadata.init, ContextMetadata.init.
  destruct n as [nm [ty va]]. cbn.
  destruct (ContextMetadata.optional_str _ (get "type" kw)) as [ty'|e1];
    destruct (ContextMetadata.optional_member (get "value" kw)) as [va'|e2];
    destruct (constr fiware_safe_star name_) as [n'|e3] eqn:E;
    split; intros H; try discriminate;
    try (destruct H as (H1 & H2 & H3); discriminate).
  - apply constr_inl in E. subst n'. injection H as -> -> ->. auto.
  - destruct H as (H1 & -> & H3). injection H1 as ->. injection H3 as -> ->.
    reflexivity.
Qed.

(** X4: [NamedContextAttribute] is constructed exactly when the name
    passes the check of an entity id (1 to 256 ASCII characters, none of
    [?], [&], [#], [/]) and the other arguments make a
    [ContextAttribute]; it holds that name and that attribute. *)
Theorem named_attribute_accepted_iff (name_ : string) (kw : Py.dict Py.value)
    (n : NamedContextAttribute.t) :
  NamedContextAttribute.init name_ kw = Ok n <->
  name_chars "?&#/" name_
  /\ NamedContextAttribute.name n = name_
  /\ ContextAttribute.init kw = Ok (NamedContextAttribute.attribute n).
Proof.
  assert (Hc : constr attribute_name name_ = inl name_ <-> name_chars "?&#/" name_).
  { rewrite constr_attribute_name. apply constr_anchored. reflexivity. }
  rewrite <- Hc. clear Hc.
  unfold NamedContextAttribute.init, ContextAttribute.init.
  destruct n as [nm a]. cbn [NamedContextAttribute.name NamedContextAttribute.attribute].
  destruct (ContextAttribute.validate_fields kw) as [[r errs]|e]; cbn [bind].
  2:{ split; [discriminate | intros (_ & _ & H); discriminate]. }
  destruct r as [a'|]; destruct (constr attribute_name name_) as [n'|e3] eqn:E;
    split; intros H; try discriminate;
    try (destruct H as (H1 & H2 & H3); discriminate).
  - apply constr_inl in E. subst n'. injection H as -> ->. auto.
  - destruct H as (H1 & -> & H3). injection H1 as ->. injection H3 as ->.
    reflexivity.
Qed.

End NamedModels.

(** ** Construction of an attribute *)

Section AttributeConstruction.

Import Py.

(** X5: a payload with a scalar value and neither type nor metadata
    makes an attribute of the default type, the member [TEXT]: its value
    is the string of what the union of the field reads the scalar as,
    and its metadata is the empty dictionary; other keys of the payload
    are ignored. An integer too large for a float ends the construction
    with [OverflowError]. *)
Theorem attribute_defaults (kw : Py.dict Py.value) (v : scalar) :
  get "type" kw = None ->
  get "value" kw = Some (VScalar v) ->
  get "metadata" kw = None ->
  ContextAttribute.init kw =
  match Pydantic.union_coerce v with
  | inr _ => Raise (Uncaught OverflowError)
  | inl u =>
      Ok (ContextAttribute.Build (Member TEXT) (SStr (str_ u))
            (ContextAttribute.Raw (VDict [])))
  end.
Proof.
  intros Ht Hv Hm.
  rewrite (init_default_type kw v (ContextAttribute.Raw (VDict [])) Ht Hv)
    by (rewrite Hm; reflexivity).
  destruct (Pydantic.union_coerce v) as [u|e] eqn:Hu; [reflexivity|].
  rewrite (union_coerce_inr _ _ Hu). reflexivity.
Qed.

Lemma attribute_defaults_witness :
  ContextAttribute.init [("unit", text "C"); ("value", int 20)] =
  Ok (ContextAttribute.Build (Member TEXT) (SStr "20.0")
        (ContextAttribute.Raw (VDict []))).
Proof.
  exact (attribute_defaults [("unit", text "C"); ("value", int 20)] (SInt 20)
           eq_refl eq_refl eq_refl).
Defined.

(** X6: a payload without [value] is rejected, whatever else it holds:
    the constructor raises a validation error that lists the field
    [value] as missing. *)
Theorem attribute_value_required (kw : Py.dict Py.value) :
  get "value" kw = None ->
  exists errs,
    ContextAttribute.init kw = Raise (ValidationError "ContextAttribute" errs)
    /\ In ("value", MissingError) errs.
Proof.
  intros Hv. unfold ContextAttribute.init, ContextAttribute.validate_fields.
  rewrite Hv. cbn [ContextAttribute.validate_value bind].
  destruct (ContextAttribute.validate_type (get "type" kw)) as [t|e1];
    destruct (ContextAttribute.validate_metadata (get "metadata" kw)) as [m|e2];
    cbn [add_error app]; eexists; (split; [reflexivity|]); cbn; tauto.
Qed.

Lemma attribute_value_required_witness :
  exists errs,
    ContextAttribute.init [("type", text "Number")] =
      Raise (ValidationError "ContextAttribute" errs)
    /\ In ("value", MissingError) errs.
Proof. apply (attribute_value_required [("type", text "Number")]). reflexivity. Defined.

(** X7: when the type of a payload is refused by the check of the field
    (a string with a slash, the empty string, [None], a dictionary) and
    the value is a scalar, the constructor does not raise a validation
    error: the validator of the value looks up [values['type']], and its
    [KeyError] leaves the constructor, unless the union has raised
    [OverflowError] before. A string that is no value of a member of
    [DataTypes] is not refused. *)
Theorem refused_type_raises_key_error (kw : Py.dict Py.value) (ty : Py.value)
    (e : field_error) (v : scalar) :
  get "type" kw = Some ty ->
  constrained_str Patterns.fiware_safe ty = inr e ->
  get "value" kw = Some (VScalar v) ->
  ContextAttribute.init kw =
  match Pydantic.union_coerce v with
  | inr _ => Raise (Uncaught OverflowError)
  | inl _ => Raise (Uncaught (KeyError "type"))
  end.
Proof.
  intros Ht He Hv. unfold ContextAttribute.init, ContextAttribute.validate_fields.
  rewrite Ht, Hv. cbn [ContextAttribute.validate_type]. rewrite He.
  cbn [validated ContextAttribute.validate_value ContextAttribute.as_scalar].
  destruct (Pydantic.union_coerce v) as [u|err] eqn:Hu; [reflexivity|].
  rewrite (union_coerce_inr _ _ Hu). reflexivity.
Qed.

Lemma refused_type_raises_key_error_witness :
  ContextAttribute.init [("type", text "a/b"); ("value", int 20)] =
  Raise (Uncaught (KeyError "type")).
Proof.
  exact (refused_type_raises_key_error [("type", text "a/b"); ("value", int 20)]
           (text "a/b") StrRegexError (SInt 20) eq_refl eq_refl eq_refl).
Defined.

(** A type that is no value of a member of [DataTypes] is accepted, and
    the value is stored as a string. *)
Example unknown_type_accepted :
  ContextAttribute.init [("type", text "Numbr"); ("value", int 20)] =
  Ok (ContextAttribute.Build (Plain "Numbr") (SStr "20.0")
        (ContextAttribute.Raw (VDict []))).
Proof. vm_compute. reflexivity. Qed.

(** X8: the class of the stored value follows the type of the attribute:
    a [bool] under [Boolean], a [float] under [Number], a [str] under
    every other type. *)
Theorem stored_value_class (kw : Py.dict Py.value) (a : ContextAttribute.t) :
  ContextAttribute.init kw = Ok a ->
  if tag_eq (ContextAttribute.type a) BOOLEAN
  then exists b, ContextAttribute.value a = SBool b
  else if tag_eq (ContextAttribute.type a) NUMBER
  then exists x, ContextAttribute.value a = SFloat x
  else exists s, ContextAttribute.value a = SStr s.
Proof.
  intros H. destruct (init_ok_inv kw a H) as (raw & v & u & _ & _ & _ & _ & Hv & _).
  destruct a as [t r m]. cbn [ContextAttribute.type ContextAttribute.value] in *.
  unfold ContextAttribute.validate_value_type in Hv.
  destruct (tag_eq t BOOLEAN); [injection Hv as <-; eexists; reflexivity|].
  destruct (tag_eq t NUMBER); [|injection Hv as <-; eexists; reflexivity].
  destruct (float_ u) as [x|e]; [|discriminate].
  injection Hv as <-. eexists; reflexivity.
Qed.

Lemma stored_value_class_witness :
  exists x, ContextAttribute.value (number 20) = SFloat x.
Proof.
  apply (stored_value_class [("type", text "Number"); ("value", int 20)] (number 20)).
  vm_compute. reflexivity.
Defined.

(** X9: the metadata of a constructed attribute is the empty dictionary
    or [None]; it is never a [ContextMetadata] and never holds an entry
    of the payload. *)
Theorem stored_metadata_empty_or_none (kw : Py.dict Py.value)
    (a : ContextAttribute.t) :
  ContextAttribute.init kw = Ok a ->
  ContextAttribute.dump_metadata (ContextAttribute.metadata a) = VDict []
  \/ ContextAttribute.dump_metadata (ContextAttribute.metadata a) = VNone.
Proof.
  intros H. destruct (stored_metadata kw a H) as [-> | ->]; [left | right]; reflexivity.
Qed.

Lemma stored_metadata_empty_or_none_witness :
  ContextAttribute.dump_metadata
    (ContextAttribute.metadata
       (ContextAttribute.Build NUMBER (SFloat twenty) (ContextAttribute.Raw VNone))) =
    VDict []
  \/ ContextAttribute.dump_metadata
       (ContextAttribute.metadata
          (ContextAttribute.Build NUMBER (SFloat twenty) (ContextAttribute.Raw VNone))) =
     VNone.
Proof.
  apply (stored_metadata_empty_or_none
           [("type", text "Number"); ("value", int 20);
            ("metadata", VDict [("unit", VDict [])])]).
  vm_compute. reflexivity.
Defined.

End AttributeConstruction.

(** ** The entities of a subscription subject *)

Section SubjectEntities.

Import Py.

Lemma check_keys_spec (ks : list string) :
  Subject.check_keys ks = None <-> (forall k, In k ks -> In k Subject.allowed_keys).
Proof.
  induction ks as [|k r IH]; cbn [Subject.check_keys].
  - split; [intros _ k [] | reflexivity].
  - destruct (mem k Subject.allowed_keys) eqn:Hk; cbn [negb].
    + rewrite IH. apply mem_In in Hk. split.
      * intros H k' [<-|Hin]; auto.
      * intros H k' Hin. apply H. now right.
    + split; [discriminate|]. intros H.
      assert (Hin : In k Subject.allowed_keys) by (apply H; now left).
      apply mem_In in Hin. congruence.
Qed.

Lemma check_keys_failure (ks : list string) (f : Subject.failure) :
  Subject.check_keys ks = Some f -> f = Subject.KeyErrorRaised.
Proof.
  induction ks as [|k r IH]; cbn [Subject.check_keys]; [discriminate|].
  destruct (negb (mem k Subject.allowed_keys)); [congruence | exact IH].
Qed.

Lemma check_item_spec (it : Subject.item) :
  Subject.check_item it = None <-> well_formed_item it.
Proof.
  unfold Subject.check_item, well_formed_item.
  destruct (Subject.check_keys (keys it)) as [f|] eqn:Hk.
  - split; [discriminate|]. intros [H _].
    apply (proj2 (check_keys_spec _)) in H. congruence.
  - pose proof (proj1 (check_keys_spec _) Hk) as Hkeys.
    rewrite !negb_involutive.
    rewrite <- !mem_In.
    destruct (mem "id" (keys it)), (mem "idPattern" (keys it)),
      (mem "type" (keys it)), (mem "typePattern" (keys it)); cbn;
      split; intros H; try discriminate; try reflexivity;
      try (repeat split; try assumption; intuition congruence);
      try (exfalso; intuition congruence).
Qed.

(** X22: the validator of [entities] returns its argument, unchanged,
    exactly when every item has only the keys [id], [idPattern], [type]
    and [typePattern], has [id] or [idPattern] but not both, and does not
    have both [type] and [typePattern]; the empty list passes. *)
Theorem validate_entities_accepts_iff (v w : list Subject.item) :
  Subject.validate_entities v = inl w <-> w = v /\ Forall well_formed_item v.
Proof.
  unfold Subject.validate_entities.
  assert (H : Subject.check_items v = None <-> Forall well_formed_item v).
  { induction v as [|it r IH]; cbn [Subject.check_items].
    - split; [constructor | reflexivity].
    - destruct (Subject.check_item it) as [f|] eqn:Hi.
      + split; [discriminate|]. intros Hall. inversion Hall as [|? ? Hit _]; subst.
        apply check_item_spec in Hit. congruence.
      + apply check_item_spec in Hi. rewrite IH. split.
        * intros Hr. now constructor.
        * intros Hall. now inversion Hall. }
  destruct (Subject.check_items v) as [f|].
  - split; [discriminate|]. intros [_ Hall]. apply H in Hall. discriminate.
  - split.
    + intros Hw. injection Hw as <-. split; [reflexivity | now apply H].
    + intros [-> _]. reflexivity.
Qed.

(** X23: the first item that is not let through decides what the
    validator raises: a [KeyError] when that item has a key other than
    the four allowed ones, whatever else is wrong with it, and an
    [AssertionError] otherwise; the items after it are not looked at. *)
Theorem validate_entities_first_failure (good : list Subject.item)
    (bad : Subject.item) (rest : list Subject.item) :
  Forall well_formed_item good ->
  ~ well_formed_item bad ->
  Subject.validate_entities (good ++ bad :: rest)%list =
  inr (if forallb (fun k => mem k Subject.allowed_keys) (keys bad)
       then Subject.AssertionFailed else Subject.KeyErrorRaised).
Proof.
  intros Hgood Hbad.
  assert (Hitem : Subject.check_item bad =
    Some (if forallb (fun k => mem k Subject.allowed_keys) (keys bad)
          then Subject.AssertionFailed else Subject.KeyErrorRaised)).
  { destruct (Subject.check_item bad) as [f|] eqn:Hi.
    2:{ apply check_item_spec in Hi. contradiction. }
    unfold Subject.check_item in Hi.
    destruct (Subject.check_keys (keys bad)) as [f'|] eqn:Hk.
    - injection Hi as <-. rewrite (check_keys_failure _ _ Hk).
      destruct (forallb _ (keys bad)) eqn:Hall; [|reflexivity].
      rewrite forallb_forall in Hall.
      assert (Subject.check_keys (keys bad) = None); [|congruence].
      apply (proj2 (check_keys_spec _)). intros k Hin. apply mem_In. now apply Hall.
    - assert (Hall : forallb (fun k => mem k Subject.allowed_keys) (keys bad) = true).
      { apply forallb_forall. intros k Hin. apply mem_In.
        now apply (proj1 (check_keys_spec _) Hk). }
      rewrite Hall.
      repeat match type of Hi with
             | (if ?c then _ else _) = _ => destruct c
             end; congruence. }
  assert (Hall : Subject.check_items (good ++ bad :: rest)%list =
                 Subject.check_item bad).
  { induction Hgood as [|it r Hit _ IH]; cbn [app Subject.check_items].
    - now rewrite Hitem.
    - apply check_item_spec in Hit. now rewrite Hit. }
  unfold Subject.validate_entities. now rewrite Hall, Hitem.
Qed.

Lemma validate_entities_first_failure_witness :
  Subject.validate_entities
    ([[("idPattern", ".*"); ("type", "Room")]]
     ++ [("id", "a"); ("idPattern", ".*"); ("name", "x")]
     :: [[("type", "Room")]])%list =
  inr (if forallb (fun k => mem k Subject.allowed_keys)
            (keys [("id", "a"); ("idPattern", ".*"); ("name", "x")])
       then Subject.AssertionFailed else Subject.KeyErrorRaised).
Proof.
  apply (validate_entities_first_failure
           [[("idPattern", ".*"); ("type", "Room")]]
           [("id", "a"); ("idPattern", ".*"); ("name", "x")]
           [[("type", "Room")]]).
  - constructor; [|constructor]. unfold well_formed_item. cbn.
    split; [intros k [<-|[<-|[]]]; tauto|].
    split; [right; left; reflexivity|].
    split; [intros [[H|[H|[]]] _]; discriminate|].
    intros [_ [H|[H|[]]]]; discriminate.
  - intros (H & _). specialize (H "name"). cbn in H. intuition discriminate.
Defined.

End SubjectEntities.
